(** * SimpleAndLightweightERP: the user API, its authentication gate and
      its authorization predicates

    A shallow embedding of [backend/index.js], [backend/src/routes/auth.js],
    [backend/src/routes/users.js], [backend/src/middleware/auth.js],
    [backend/src/middleware/authorize.js] and
    [backend/src/db/localdb/database.js].

    Conventions.
    - A JavaScript string is a [string], one character per code unit; the
      literals of the source are kept as they are written.
    - A JSON number is an integer ([JNum z]); fractions are not represented.
    - The store is the [users] relation of the SQLite file, a list of rows in
      insertion order, and every statement the handlers prepare is a value
      of [Stmt], prepared against the table [initializeDatabase] creates;
      better-sqlite3 binds the arguments of a statement as its binder does,
      arrays spread over the parameters.
    - bcrypt, jsonwebtoken, the rendering of numbers by SQLite and the
      coercions of JavaScript's [<] are parameters ([Lib]); the values a
      request draws from its environment (uuid, salt, clock) are a [World].
    - A request is served from its first middleware to its response without
      another request in between; output to the console is left out. *)

From Stdlib Require Import String Ascii List ZArith Bool Lia DecimalString.
Import ListNotations.
Local Open Scope string_scope.
Local Open Scope Z_scope.

(** ** JavaScript values *)

#[warnings="-register-all"]
Inductive JsVal : Type :=
| JUndefined
| JNull
| JBool (b : bool)
| JNum (z : Z)
| JStr (s : string)
| JArr (items : list JsVal)
| JObj (fields : list (string * JsVal)).

(** A plain object, as [JSON.parse] and better-sqlite3 build them: its own
    properties in insertion order. *)
Definition JsObject : Type := list (string * JsVal).

(** ToBoolean: what [!v] and [if (v)] test. *)
Definition truthy (v : JsVal) : bool :=
  match v with
  | JUndefined | JNull => false
  | JBool b => b
  | JNum z => negb (z =? 0)
  | JStr s => negb (s =? "")%string
  | JArr _ | JObj _ => true
  end.

(** [v !== undefined]. *)
Definition defined (v : JsVal) : bool :=
  match v with
  | JUndefined => false
  | _ => true
  end.

(** Own property lookup, first binding of the key. *)
Fixpoint assoc (k : string) (fs : JsObject) : option JsVal :=
  match fs with
  | [] => None
  | (k', v) :: rest => if (k' =? k)%string then Some v else assoc k rest
  end.

(** [o.k] on a plain object: [undefined] when the key is absent. *)
Definition field (k : string) (o : JsObject) : JsVal :=
  match assoc k o with
  | Some v => v
  | None => JUndefined
  end.

Definition has_key (k : string) (o : JsObject) : bool :=
  match assoc k o with
  | Some _ => true
  | None => false
  end.

(** The rest of an object pattern: [const { k, ...rest } = o]. *)
Definition omit (k : string) (o : JsObject) : JsObject :=
  filter (fun kv => negb (fst kv =? k)%string) o.

(** [v.k] for the property names the handlers read ([username], [password],
    [email], [userId], [length]) on a value that is neither [null] nor
    [undefined]. *)
Definition js_prop (v : JsVal) (k : string) : JsVal :=
  match v with
  | JObj fs => field k fs
  | JArr l => if (k =? "length")%string then JNum (Z.of_nat (List.length l)) else JUndefined
  | JStr s => if (k =? "length")%string then JNum (Z.of_nat (String.length s)) else JUndefined
  | _ => JUndefined
  end.

(** [v === s] where [s] is a string. *)
Definition strict_eq_string (v : JsVal) (s : string) : bool :=
  match v with
  | JStr t => (t =? s)%string
  | _ => false
  end.

(** ** Strings *)

(** [s.split(c)] for a one-character separator. *)
Fixpoint split_on (c : ascii) (s : string) : list string :=
  match s with
  | EmptyString => [EmptyString]
  | String a rest =>
      if Ascii.eqb a c then EmptyString :: split_on c rest
      else match split_on c rest with
           | [] => [String a EmptyString]
           | h :: t => String a h :: t
           end
  end.

(** [s.includes(p)]. *)
Fixpoint includes (p s : string) : bool :=
  if String.prefix p s then true
  else match s with
       | EmptyString => false
       | String _ rest => includes p rest
       end.

(** ** Exceptions *)

(** A thrown error, as the [catch] blocks inspect it: [error.name] and
    [error.code]. *)
Record JsError : Type := mkError { e_name : string; e_code : option string }.

Inductive Result (A : Type) : Type :=
| Ok (a : A)
| Throw (e : JsError).
Arguments Ok {A} a.
Arguments Throw {A} e.

Definition TypeError : JsError := mkError "TypeError" None.
Definition RangeError : JsError := mkError "RangeError" None.
Definition PlainError : JsError := mkError "Error" None.
Definition SqliteError (code : string) : JsError := mkError "SqliteError" (Some code).
Definition JsonWebTokenError : JsError := mkError "JsonWebTokenError" None.
Definition TokenExpiredError : JsError := mkError "TokenExpiredError" None.

Definition rbind {A B} (r : Result A) (k : A -> Result B) : Result B :=
  match r with
  | Ok a => k a
  | Throw e => Throw e
  end.

(** [const { a, b, c } = v]: throws on [undefined] and [null]. *)
Definition member (v : JsVal) (k : string) : Result JsVal :=
  match v with
  | JUndefined | JNull => Throw TypeError
  | _ => Ok (js_prop v k)
  end.

(** ** The store: database.js and better-sqlite3 *)

Inductive SqlVal : Type :=
| SNull
| SInt (z : Z)
| SText (s : string).

Definition sql_eqb (a b : SqlVal) : bool :=
  match a, b with
  | SNull, SNull => true
  | SInt x, SInt y => x =? y
  | SText s, SText t => (s =? t)%string
  | _, _ => false
  end.

(** What a statement hands back to JavaScript for a stored value. *)
Definition js_of_sql (v : SqlVal) : JsVal :=
  match v with
  | SNull => JNull
  | SInt z => JNum z
  | SText s => JStr s
  end.

Inductive Column : Type :=
| c_id | c_username | c_password_hash | c_email | c_is_admin | c_created_at.

Definition column_eqb (a b : Column) : bool :=
  match a, b with
  | c_id, c_id | c_username, c_username | c_password_hash, c_password_hash
  | c_email, c_email | c_is_admin, c_is_admin | c_created_at, c_created_at => true
  | _, _ => false
  end.

Definition column_name (c : Column) : string :=
  match c with
  | c_id => "id"
  | c_username => "username"
  | c_password_hash => "password_hash"
  | c_email => "email"
  | c_is_admin => "is_admin"
  | c_created_at => "created_at"
  end.

(** One row of [users]: the columns [initializeDatabase] declares and
    [is_admin], which the INSERT of the register handler and the SELECT of
    the gate name. *)
Record Row : Type := mkRow {
  id : SqlVal;
  username : SqlVal;
  password_hash : SqlVal;
  email : SqlVal;
  is_admin : SqlVal;
  created_at : SqlVal
}.

Definition Db : Type := list Row.

Definition col_value (c : Column) (r : Row) : SqlVal :=
  match c with
  | c_id => id r
  | c_username => username r
  | c_password_hash => password_hash r
  | c_email => email r
  | c_is_admin => is_admin r
  | c_created_at => created_at r
  end.

Definition set_col (c : Column) (v : SqlVal) (r : Row) : Row :=
  match c with
  | c_id => mkRow v (username r) (password_hash r) (email r) (is_admin r) (created_at r)
  | c_username => mkRow (id r) v (password_hash r) (email r) (is_admin r) (created_at r)
  | c_password_hash => mkRow (id r) (username r) v (email r) (is_admin r) (created_at r)
  | c_email => mkRow (id r) (username r) (password_hash r) v (is_admin r) (created_at r)
  | c_is_admin => mkRow (id r) (username r) (password_hash r) (email r) v (created_at r)
  | c_created_at => mkRow (id r) (username r) (password_hash r) (email r) (is_admin r) v
  end.

(** The columns [initializeDatabase] declares, with their constraints:
<<
    CREATE TABLE IF NOT EXISTS users (
      id TEXT PRIMARY KEY,
      username TEXT NOT NULL,
      password_hash TEXT NOT NULL,
      email TEXT UNIQUE NOT NULL,
      created_at DATETIME DEFAULT CURRENT_TIMESTAMP
    )
>> *)
Record ColumnDecl : Type := mkDecl {
  decl_name : string;
  decl_type : string;
  decl_primary_key : bool;
  decl_not_null : bool;
  decl_unique : bool;
  decl_default : option string
}.

Definition initializeDatabase : list ColumnDecl :=
  [ mkDecl "id" "TEXT" true false false None;
    mkDecl "username" "TEXT" false true false None;
    mkDecl "password_hash" "TEXT" false true false None;
    mkDecl "email" "TEXT" false true true None;
    mkDecl "created_at" "DATETIME" false false false (Some "CURRENT_TIMESTAMP") ].

Definition declares (schema : list ColumnDecl) (c : string) : bool :=
  existsb (fun d => (decl_name d =? c)%string) schema.

(** Whether a table has all the columns of a list. *)
Definition prepares (schema : list ColumnDecl) (cols : list Column) : bool :=
  forallb (fun c => declares schema (column_name c)) cols.

Definition decl_of (c : Column) : option ColumnDecl :=
  find (fun d => (decl_name d =? column_name c)%string) initializeDatabase.

(** TEXT affinity, NOT NULL and the two unique indexes (PRIMARY KEY, UNIQUE)
    are read off the declaration; a column without one has none of them. *)
Definition text_column (c : Column) : bool :=
  match decl_of c with
  | Some d => (decl_type d =? "TEXT")%string
  | None => false
  end.

Definition not_null_column (c : Column) : bool :=
  match decl_of c with
  | Some d => decl_not_null d
  | None => false
  end.

Definition unique_column (c : Column) : bool :=
  match decl_of c with
  | Some d => decl_primary_key d || decl_unique d
  | None => false
  end.

(** Modelled from the spec: the default of the [is_admin] column, which the
    handlers read and write but whose declaration is not in
    [initializeDatabase]; the spec makes a user created without the column
    a non-admin. *)
Definition is_admin_default : SqlVal := SInt 0.

(** The columns of [SELECT *]. *)
Definition all_columns : list Column :=
  [c_id; c_username; c_password_hash; c_email; c_is_admin; c_created_at].

(** ** External libraries and the request's environment *)

Record Lib : Type := mkLib {
  (** bcrypt's digest of a string at a cost factor, under a salt *)
  bcrypt_digest : string -> Z -> string -> string;
  (** [bcrypt.compare] on a plaintext string and a stored hash *)
  bcrypt_verify : string -> string -> bool;
  (** [jwt.sign] at a clock value, under the configured secret and lifetime *)
  jwt_sign : Z -> JsVal -> Result string;
  (** [jwt.verify] at a clock value, under the configured secret *)
  jwt_verify : Z -> string -> Result JsVal;
  (** the text SQLite stores for a number bound to a TEXT column *)
  sqlite_text_of_number : Z -> string;
  (** CURRENT_TIMESTAMP at a clock value *)
  sqlite_current_timestamp : Z -> string;
  (** [v < n] for an operand that is a string, an array or an object *)
  less_than_coerced : JsVal -> Z -> Result bool
}.

Record World : Type := mkWorld {
  w_uuid : string;   (** the result of [uuidv4()] *)
  w_salt : string;   (** the salt bcrypt generates *)
  w_clock : Z        (** the time of the request *)
}.

(** *** better-sqlite3: binding the arguments of [run], [get] and [all] *)

Definition bind_value (v : JsVal) : Result SqlVal :=
  match v with
  | JNum z => Ok (SInt z)
  | JStr s => Ok (SText s)
  | JNull | JUndefined => Ok SNull
  | _ => Throw TypeError
  end.

Fixpoint bind_array (l : list JsVal) : Result (list SqlVal) :=
  match l with
  | [] => Ok []
  | v :: rest =>
      rbind (bind_value v) (fun x =>
      rbind (bind_array rest) (fun xs => Ok (x :: xs)))
  end.

(** An array argument is spread over the anonymous parameters; a plain
    object carries named parameters, of which the statements of this
    program have none, and only one such object is accepted. *)
Fixpoint bind_args (bound_object : bool) (args : list JsVal) : Result (list SqlVal) :=
  match args with
  | [] => Ok []
  | JArr l :: rest =>
      rbind (bind_array l) (fun xs =>
      rbind (bind_args bound_object rest) (fun ys => Ok (xs ++ ys)%list))
  | JObj _ :: rest =>
      if bound_object then Throw TypeError else bind_args true rest
  | v :: rest =>
      rbind (bind_value v) (fun x =>
      rbind (bind_args bound_object rest) (fun ys => Ok (x :: ys)))
  end.

Definition bind_parameters (n : nat) (args : list JsVal) : Result (list SqlVal) :=
  rbind (bind_args false args) (fun vs =>
  if Nat.eqb (List.length vs) n then Ok vs else Throw RangeError).

(** *** The statements the handlers prepare *)

Inductive Stmt : Type :=
| InsertInto (cols : list Column)
    (** INSERT INTO users (cols) VALUES (?, ..., ?) *)
| SelectFrom (proj : list Column) (where_ : option Column)
    (** SELECT proj FROM users [WHERE c = ?] *)
| SelectAll (where_ : option Column)
    (** SELECT * FROM users [WHERE c = ?] *)
| UpdateSet (cols : list Column) (where_ : Column)
    (** UPDATE users SET c1 = ?, ..., cn = ? WHERE c = ? *)
| DeleteFrom (where_ : Column).
    (** DELETE FROM users WHERE c = ? *)

Definition is_null (v : SqlVal) : bool :=
  match v with
  | SNull => true
  | _ => false
  end.

Definition parameter_count (q : Stmt) : nat :=
  match q with
  | InsertInto cols => List.length cols
  | SelectFrom _ None | SelectAll None => 0
  | SelectFrom _ (Some _) | SelectAll (Some _) => 1
  | UpdateSet cols _ => S (List.length cols)
  | DeleteFrom _ => 1
  end.

(** The columns a statement names; [*] names none. *)
Definition statement_columns (q : Stmt) : list Column :=
  match q with
  | InsertInto cols => cols
  | SelectFrom proj None => proj
  | SelectFrom proj (Some c) => (proj ++ [c])%list
  | SelectAll None => []
  | SelectAll (Some c) => [c]
  | UpdateSet cols c => (cols ++ [c])%list
  | DeleteFrom c => [c]
  end.

(** [db.prepare(sql)] against a table: SQLite refuses, with the code
    SQLITE_ERROR, a statement that names a column the table lacks. *)
Definition prepare (schema : list ColumnDecl) (q : Stmt) : Result Stmt :=
  if prepares schema (statement_columns q) then Ok q
  else Throw (SqliteError "SQLITE_ERROR").

(** The row object a SELECT returns: one property per projected column. *)
Definition project (proj : list Column) (r : Row) : JsObject :=
  map (fun c => (column_name c, js_of_sql (col_value c r))) proj.

Definition violates_not_null (r : Row) : bool :=
  existsb (fun c => not_null_column c && is_null (col_value c r)) all_columns.

Definition occurrences (c : Column) (v : SqlVal) (db : Db) : nat :=
  List.length (filter (fun r => sql_eqb (col_value c r) v) db).

(** A unique index holds at most one row per non-NULL value. *)
Definition violates_unique (c : Column) (db : Db) (r : Row) : bool :=
  unique_column c && negb (is_null (col_value c r))
  && Nat.ltb 1 (occurrences c (col_value c r) db).

(** The constraints SQLite checks on the rows a statement wrote, [db] being
    the relation with the statement applied. *)
Definition check_constraints (db : Db) (written : list Row) : Result unit :=
  if existsb violates_not_null written then
    Throw (SqliteError "SQLITE_CONSTRAINT_NOTNULL")
  else if existsb (violates_unique c_id db) written then
    Throw (SqliteError "SQLITE_CONSTRAINT_PRIMARYKEY")
  else if existsb (violates_unique c_email db) written then
    Throw (SqliteError "SQLITE_CONSTRAINT_UNIQUE")
  else Ok tt.

Section Sqlite.
Variable lib : Lib.
Variable w : World.

(** Column affinity: a number bound to a TEXT column is stored, and
    compared, as text. *)
Definition store (c : Column) (v : SqlVal) : SqlVal :=
  if text_column c then
    match v with
    | SInt z => SText (sqlite_text_of_number lib z)
    | _ => v
    end
  else v.

(** [c = ?] *)
Definition matches (c : Column) (v : SqlVal) (r : Row) : bool :=
  match store c v with
  | SNull => false
  | x => sql_eqb (col_value c r) x
  end.

Fixpoint assign (cols : list Column) (vals : list SqlVal) (r : Row) : Row :=
  match cols, vals with
  | c :: cs, v :: vs => assign cs vs (set_col c (store c v) r)
  | _, _ => r
  end.

(** The row an INSERT starts from: every column at its default. *)
Definition default_row : Row :=
  mkRow SNull SNull SNull SNull is_admin_default
        (SText (sqlite_current_timestamp lib (w_clock w))).

(** [stmt.run(...args)] *)
Definition run_stmt (q : Stmt) (args : list JsVal) (db : Db) : Result Db :=
  match q with
  | InsertInto cols =>
      rbind (bind_parameters (parameter_count q) args) (fun vs =>
      let r := assign cols vs default_row in
      let db' := (db ++ [r])%list in
      rbind (check_constraints db' [r]) (fun _ => Ok db'))
  | UpdateSet cols key =>
      rbind (bind_parameters (parameter_count q) args) (fun vs =>
      let k := last vs SNull in
      let db' := map (fun r => if matches key k r then assign cols vs r else r) db in
      let written := map (assign cols vs) (filter (matches key k) db) in
      rbind (check_constraints db' written) (fun _ => Ok db'))
  | DeleteFrom key =>
      rbind (bind_parameters (parameter_count q) args) (fun vs =>
      Ok (filter (fun r => negb (matches key (hd SNull vs) r)) db))
  | SelectFrom _ _ | SelectAll _ => Throw TypeError
  end.

(** The columns of the rows a SELECT returns and its WHERE column. *)
Definition selection (q : Stmt) : option (list Column * option Column) :=
  match q with
  | SelectFrom proj key => Some (proj, key)
  | SelectAll key => Some (all_columns, key)
  | _ => None
  end.

(** [stmt.get(...args)]: the first row, or [undefined]. *)
Definition get_stmt (q : Stmt) (args : list JsVal) (db : Db) : Result (option JsObject) :=
  match selection q with
  | Some (proj, None) =>
      rbind (bind_parameters (parameter_count q) args) (fun _ =>
      Ok (option_map (project proj) (hd_error db)))
  | Some (proj, Some key) =>
      rbind (bind_parameters (parameter_count q) args) (fun vs =>
      Ok (option_map (project proj) (find (matches key (hd SNull vs)) db)))
  | None => Throw TypeError
  end.

(** [stmt.all(...args)] *)
Definition all_stmt (q : Stmt) (args : list JsVal) (db : Db) : Result (list JsObject) :=
  match selection q with
  | Some (proj, None) =>
      rbind (bind_parameters (parameter_count q) args) (fun _ =>
      Ok (map (project proj) db))
  | Some (proj, Some key) =>
      rbind (bind_parameters (parameter_count q) args) (fun vs =>
      Ok (map (project proj) (filter (matches key (hd SNull vs)) db)))
  | None => Throw TypeError
  end.

End Sqlite.

(** ** Handlers as computations over the store *)

(** The calls into bcrypt and jsonwebtoken a request makes, in order. *)
Inductive Event : Type :=
| EvVerify (token : string)
| EvHash (data : JsVal) (rounds : Z)
| EvCompare (data : JsVal) (hash : JsVal)
| EvSign (payload : JsVal).

Record St : Type := mkSt { st_db : Db; st_log : list Event }.

(** A computation reads and writes the store, may call a library, and
    either returns or throws; what it wrote before throwing stays. *)
Definition M (A : Type) : Type := St -> Result A * St.

Definition ret {A} (a : A) : M A := fun s => (Ok a, s).

Definition throw {A} (e : JsError) : M A := fun s => (Throw e, s).

Definition bind {A B} (m : M A) (k : A -> M B) : M B :=
  fun s =>
    match m s with
    | (Ok a, s') => k a s'
    | (Throw e, s') => (Throw e, s')
    end.

(** [try { m } catch (error) { h error }] *)
Definition try_catch {A} (m : M A) (h : JsError -> M A) : M A :=
  fun s =>
    match m s with
    | (Ok a, s') => (Ok a, s')
    | (Throw e, s') => h e s'
    end.

Definition lift {A} (r : Result A) : M A := fun s => (r, s).

Definition emit (ev : Event) : M unit :=
  fun s => (Ok tt, mkSt (st_db s) (st_log s ++ [ev])%list).

Definition query {A} (f : Db -> Result A) : M A := fun s => (f (st_db s), s).

Definition exec (f : Db -> Result Db) : M unit :=
  fun s =>
    match f (st_db s) with
    | Ok db' => (Ok tt, mkSt db' (st_log s))
    | Throw e => (Throw e, s)
    end.

Declare Scope js_scope.
Delimit Scope js_scope with js.
Notation "x <- m ;; k" := (bind m (fun x => k))
  (at level 61, m at next level, right associativity) : js_scope.
Notation "m ;; k" := (bind m (fun _ => k))
  (at level 61, right associativity) : js_scope.
Local Open Scope js_scope.

Record Response : Type := mkResponse { status : Z; body : JsVal }.

(** [res.status(code).json(value)] *)
Definition json (code : Z) (value : JsVal) : Response := mkResponse code value.

(** [res.status(code).send()] *)
Definition send (code : Z) : Response := mkResponse code JUndefined.

Record Req : Type := mkReq {
  authorization : option string;  (** [req.headers['authorization']] *)
  params_id : string;             (** [req.params.id] *)
  req_body : JsVal;               (** [req.body] *)
  user : option JsObject          (** [req.user] *)
}.

(** What a middleware does with a request: call [next()] or respond. *)
Inductive Step : Type :=
| Next (req : Req)
| Respond (res : Response).

Definition error_body (message : string) : JsVal :=
  JObj [("error", JStr message)].

Definition error_details (message details : string) : JsVal :=
  JObj [("error", JStr message); ("details", JStr details)].

(** *** middleware/authorize.js *)

Definition requireAdmin (req : Req) : Step :=
  match user req with
  | None => Respond (json 401 (error_body "Autenticação necessária"))
  | Some u =>
      if negb (truthy (field "is_admin" u)) then
        Respond (json 403 (error_body "Acesso negado. Apenas administradores."))
      else Next req
  end.

Definition requireAdminOrOwner (req : Req) : Step :=
  match user req with
  | None => Respond (json 401 (error_body "Autenticação necessária"))
  | Some u =>
      let isOwner := strict_eq_string (field "id" u) (params_id req) in
      let isAdmin := truthy (field "is_admin" u) in
      if negb isAdmin && negb isOwner then
        Respond (json 403 (error_body "Acesso negado"))
      else Next req
  end.

(** *** The prepared statements *)

(** SELECT * FROM users *)
Definition select_users : Stmt := SelectAll None.
(** SELECT * FROM users WHERE id = ? *)
Definition select_user_by_id : Stmt := SelectAll (Some c_id).
(** SELECT * FROM users WHERE email = ? *)
Definition select_user_by_email : Stmt := SelectAll (Some c_email).
(** SELECT id, username, email, is_admin FROM users WHERE id = ? *)
Definition select_identity_by_id : Stmt :=
  SelectFrom [c_id; c_username; c_email; c_is_admin] (Some c_id).
(** INSERT INTO users (id, username, password_hash, email, is_admin) VALUES (?, ?, ?, ?, ?) *)
Definition insert_registered : Stmt :=
  InsertInto [c_id; c_username; c_password_hash; c_email; c_is_admin].
(** INSERT INTO users (id, username, password_hash, email) VALUES (?, ?, ?, ?) *)
Definition insert_created : Stmt :=
  InsertInto [c_id; c_username; c_password_hash; c_email].
(** DELETE FROM users WHERE id = ? *)
Definition delete_user_by_id : Stmt := DeleteFrom c_id.

Definition SALT_ROUNDS : Z := 10.

(** [error.code && error.code.includes('SQLITE_CONSTRAINT')] *)
Definition is_constraint_error (error : JsError) : bool :=
  match e_code error with
  | Some code => negb (code =? "")%string && includes "SQLITE_CONSTRAINT" code
  | None => false
  end.

(** [authHeader && authHeader.split(' ')[1]]: [None] is [undefined]. *)
Definition bearer_token (authHeader : option string) : option string :=
  match authHeader with
  | None => None
  | Some h => if (h =? "")%string then Some h else nth_error (split_on " " h) 1
  end.

(** [!token] *)
Definition no_token (token : option string) : bool :=
  match token with
  | None => true
  | Some t => (t =? "")%string
  end.

Definition missing_fields : Response :=
  json 400 (error_details "Campos obrigatórios faltando"
                          "username, password e email são obrigatórios").

Definition weak_password : Response :=
  json 400 (error_details "Senha muito fraca"
                          "A senha deve ter no mínimo 8 caracteres").

Definition email_in_use : Response :=
  json 400 (error_details "Email já está em uso"
                          "Um usuário com este email já existe no sistema").

Definition invalid_credentials : Response :=
  json 401 (error_body "Credenciais inválidas").

Definition user_not_found : Response :=
  json 404 (error_body "Usuário não encontrado").

Definition nothing_to_update : Response :=
  json 400 (error_details "Nenhum campo para atualizar"
                          "Forneça ao menos um campo: username, password ou email").

Definition token_missing : Response :=
  json 401 (error_body "Token não fornecido").

(** The routes [index.js] mounts: /auth/register, /auth/login, /users and
    /users/:id under their methods. *)
Inductive Route : Type :=
| PostAuthRegister
| PostAuthLogin
| GetUsers
| GetUsersId
| PostUsers
| PutUsersId
| DeleteUsersId.

Section Handlers.
Variable lib : Lib.
Variable w : World.

(** [await bcrypt.hash(data, rounds)] *)
Definition bcrypt_hash (data : JsVal) (rounds : Z) : M string :=
  emit (EvHash data rounds) ;;
  match data with
  | JStr s => ret (bcrypt_digest lib s rounds (w_salt w))
  | _ => throw PlainError
  end.

(** [await bcrypt.compare(data, hash)] *)
Definition bcrypt_compare (data hash : JsVal) : M bool :=
  emit (EvCompare data hash) ;;
  match data, hash with
  | JStr s, JStr h => ret (bcrypt_verify lib s h)
  | _, _ => throw PlainError
  end.

(** [jwt.sign(payload, process.env.JWT_SECRET, { expiresIn })] *)
Definition sign (payload : JsVal) : M string :=
  emit (EvSign payload) ;;
  lift (jwt_sign lib (w_clock w) payload).

(** [jwt.verify(token, process.env.JWT_SECRET)]; without a token
    jsonwebtoken throws its "jwt must be provided" error. *)
Definition verify (token : option string) : M JsVal :=
  match token with
  | Some t =>
      emit (EvVerify t) ;;
      lift (jwt_verify lib (w_clock w) t)
  | None => throw JsonWebTokenError
  end.

(** [v < n] *)
Definition less_than (v : JsVal) (n : Z) : Result bool :=
  match v with
  | JUndefined => Ok false
  | JNull => Ok (0 <? n)
  | JBool b => Ok ((if b then 1 else 0) <? n)
  | JNum z => Ok (z <? n)
  | _ => less_than_coerced lib v n
  end.

(** [db.prepare(sql)]: the statement is compiled against the table
    [initializeDatabase] has created. *)
Definition db_prepare (q : Stmt) : M Stmt := lift (prepare initializeDatabase q).

Definition get (q : Stmt) (args : list JsVal) : M (option JsObject) :=
  query (get_stmt lib q args).

Definition all (q : Stmt) (args : list JsVal) : M (list JsObject) :=
  query (all_stmt lib q args).

Definition run (q : Stmt) (args : list JsVal) : M unit :=
  exec (run_stmt lib w q args).

(** [const { password_hash: _, ...rest } = row] *)
Definition without_password (row : option JsObject) : M JsObject :=
  match row with
  | Some o => ret (omit "password_hash" o)
  | None => throw TypeError
  end.

(** *** middleware/auth.js *)

Definition authenticateToken (req : Req) : M Step :=
  try_catch
    (let authHeader := authorization req in
     let token := bearer_token authHeader in
     if no_token token then ret (Respond token_missing)
     else
       decoded <- verify token ;;
       stmt <- db_prepare select_identity_by_id ;;
       userId <- lift (member decoded "userId") ;;
       found <- get stmt [userId] ;;
       match found with
       | None => ret (Respond (json 401 (error_body "Usuário não encontrado")))
       | Some u =>
           ret (Next (mkReq (authorization req) (params_id req) (req_body req) (Some u)))
       end)
    (fun error =>
       if (e_name error =? "JsonWebTokenError")%string then
         ret (Respond (json 403 (error_body "Token inválido")))
       else if (e_name error =? "TokenExpiredError")%string then
         ret (Respond (json 403 (error_body "Token expirado")))
       else ret (Respond (json 500 (error_body "Erro ao verificar token")))).

(** *** routes/auth.js *)

Definition public_user (uid username email : JsVal) (admin : bool) : JsVal :=
  JObj [("id", uid); ("username", username); ("email", email); ("is_admin", JBool admin)].

Definition claims (uid username email : JsVal) (admin : bool) : JsVal :=
  JObj [("userId", uid); ("username", username); ("email", email); ("is_admin", JBool admin)].

(** POST /auth/register *)
Definition register (req : Req) : M Response :=
  try_catch
    (username <- lift (member (req_body req) "username") ;;
     password <- lift (member (req_body req) "password") ;;
     email <- lift (member (req_body req) "email") ;;
     if negb (truthy username) || negb (truthy password) || negb (truthy email) then
       ret missing_fields
     else
       short <- lift (less_than (js_prop password "length") 8) ;;
       if short then ret weak_password
       else
         password_hash <- bcrypt_hash password SALT_ROUNDS ;;
         let id := w_uuid w in
         stmt <- db_prepare insert_registered ;;
         run stmt [JStr id; username; JStr password_hash; email; JNum 0] ;;
         token <- sign (claims (JStr id) username email false) ;;
         ret (json 201 (JObj [("message", JStr "Usuário criado com sucesso");
                              ("token", JStr token);
                              ("user", public_user (JStr id) username email false)])))
    (fun error =>
       if is_constraint_error error then ret email_in_use
       else ret (json 500 (error_body "Erro ao registrar usuário"))).

(** POST /auth/login *)
Definition login (req : Req) : M Response :=
  try_catch
    (email <- lift (member (req_body req) "email") ;;
     password <- lift (member (req_body req) "password") ;;
     if negb (truthy email) || negb (truthy password) then
       ret (json 400 (error_details "Campos obrigatórios faltando"
                                    "email e password são obrigatórios"))
     else
       stmt <- db_prepare select_user_by_email ;;
       found <- get stmt [email] ;;
       match found with
       | None => ret invalid_credentials
       | Some u =>
           passwordMatch <- bcrypt_compare password (field "password_hash" u) ;;
           if negb passwordMatch then ret invalid_credentials
           else
             let admin := truthy (field "is_admin" u) in
             token <- sign (claims (field "id" u) (field "username" u) (field "email" u) admin) ;;
             ret (json 200 (JObj [("message", JStr "Login realizado com sucesso");
                                  ("token", JStr token);
                                  ("user", public_user (field "id" u) (field "username" u)
                                                       (field "email" u) admin)]))
       end)
    (fun _ => ret (json 500 (error_body "Erro ao fazer login"))).

(** *** routes/users.js *)

(** GET /users *)
Definition list_users (req : Req) : M Response :=
  try_catch
    (stmt <- db_prepare select_users ;;
     users <- all stmt [] ;;
     let usersWithoutPassword := map (omit "password_hash") users in
     ret (json 200 (JArr (map JObj usersWithoutPassword))))
    (fun _ => ret (json 500 (error_body "Erro ao buscar usuários"))).

(** GET /users/:id *)
Definition get_user (req : Req) : M Response :=
  try_catch
    (let id := params_id req in
     stmt <- db_prepare select_user_by_id ;;
     found <- get stmt [JStr id] ;;
     match found with
     | None => ret user_not_found
     | Some u =>
         userWithoutPassword <- without_password (Some u) ;;
         ret (json 200 (JObj userWithoutPassword))
     end)
    (fun _ => ret (json 500 (error_body "Erro ao buscar usuário"))).

(** POST /users *)
Definition create_user (req : Req) : M Response :=
  try_catch
    (username <- lift (member (req_body req) "username") ;;
     password <- lift (member (req_body req) "password") ;;
     email <- lift (member (req_body req) "email") ;;
     if negb (truthy username) || negb (truthy password) || negb (truthy email) then
       ret missing_fields
     else
       short <- lift (less_than (js_prop password "length") 8) ;;
       if short then ret weak_password
       else
         password_hash <- bcrypt_hash password SALT_ROUNDS ;;
         let id := w_uuid w in
         stmt <- db_prepare insert_created ;;
         run stmt [JStr id; username; JStr password_hash; email] ;;
         userStmt <- db_prepare select_user_by_id ;;
         newUser <- get userStmt [JStr id] ;;
         userWithoutPassword <- without_password newUser ;;
         ret (json 201 (JObj userWithoutPassword)))
    (fun error =>
       if is_constraint_error error then ret email_in_use
       else ret (json 500 (error_body "Erro ao criar usuário"))).

(** PUT /users/:id *)
Definition update_user (req : Req) : M Response :=
  try_catch
    (let id := params_id req in
     checkStmt <- db_prepare select_user_by_id ;;
     existingUser <- get checkStmt [JStr id] ;;
     match existingUser with
     | None => ret user_not_found
     | Some _ =>
         username <- lift (member (req_body req) "username") ;;
         password <- lift (member (req_body req) "password") ;;
         email <- lift (member (req_body req) "email") ;;
         let updates : list Column := [] in
         let values : list JsVal := [] in
         let '(updates, values) :=
           if defined username then ((updates ++ [c_username])%list, (values ++ [username])%list)
           else (updates, values) in
         staged <- (if defined password then
                      password_hash <- bcrypt_hash password SALT_ROUNDS ;;
                      ret ((updates ++ [c_password_hash])%list, (values ++ [JStr password_hash])%list)
                    else ret (updates, values)) ;;
         let '(updates, values) := staged in
         let '(updates, values) :=
           if defined email then ((updates ++ [c_email])%list, (values ++ [email])%list)
           else (updates, values) in
         if Nat.eqb (List.length updates) 0 then ret nothing_to_update
         else
           let values := (values ++ [JStr id])%list in
           stmt <- db_prepare (UpdateSet updates c_id) ;;
           run stmt values ;;
           updatedUserStmt <- db_prepare select_user_by_id ;;
           updatedUser <- get updatedUserStmt [JStr id] ;;
           userWithoutPassword <- without_password updatedUser ;;
           ret (json 200 (JObj userWithoutPassword))
     end)
    (fun error =>
       if is_constraint_error error then ret email_in_use
       else ret (json 500 (error_body "Erro ao atualizar usuário"))).

(** DELETE /users/:id *)
Definition delete_user (req : Req) : M Response :=
  try_catch
    (let id := params_id req in
     checkStmt <- db_prepare select_user_by_id ;;
     existingUser <- get checkStmt [JStr id] ;;
     match existingUser with
     | None => ret user_not_found
     | Some _ =>
         stmt <- db_prepare delete_user_by_id ;;
         run stmt [JStr id] ;;
         ret (send 204)
     end)
    (fun _ => ret (json 500 (error_body "Erro ao excluir usuário"))).

(** *** index.js: the routes and their middleware *)

(** Express runs the middleware of a route in order; each one either
    responds or hands the request on. *)
Fixpoint through (mws : list (Req -> M Step)) (handler : Req -> M Response)
         (req : Req) : M Response :=
  match mws with
  | [] => handler req
  | mw :: rest =>
      step <- mw req ;;
      match step with
      | Next req' => through rest handler req'
      | Respond res => ret res
      end
  end.

Definition pure_mw (f : Req -> Step) (req : Req) : M Step := ret (f req).

Definition serve (route : Route) : Req -> M Response :=
  match route with
  | PostAuthRegister => register
  | PostAuthLogin => login
  | GetUsers => through [authenticateToken; pure_mw requireAdmin] list_users
  | GetUsersId => through [authenticateToken; pure_mw requireAdminOrOwner] get_user
  | PostUsers => through [authenticateToken; pure_mw requireAdmin] create_user
  | PutUsersId => through [authenticateToken; pure_mw requireAdminOrOwner] update_user
  | DeleteUsersId => through [authenticateToken; pure_mw requireAdmin] delete_user
  end.

End Handlers.

(** ** A small instance of the libraries, to run the handlers on examples *)

Module Sample.

(** A stand-in for bcrypt: the salt, a colon, the plaintext. *)
Definition digest (data : string) (rounds : Z) (salt : string) : string :=
  salt ++ ":" ++ data.

Definition check (data hash : string) : bool :=
  match split_on ":" hash with
  | [_; d] => (d =? data)%string
  | _ => false
  end.

(** A stand-in for jsonwebtoken: the token of a subject is ["jwt."]
    followed by its id; the token ["old"] has expired. *)
Definition issue (clock : Z) (payload : JsVal) : Result string :=
  match js_prop payload "userId" with
  | JStr uid => Ok ("jwt." ++ uid)
  | _ => Throw PlainError
  end.

Definition parse (clock : Z) (token : string) : Result JsVal :=
  if String.prefix "jwt." token then
    Ok (JObj [("userId", JStr (substring 4 (String.length token - 4) token))])
  else if (token =? "old")%string then Throw TokenExpiredError
  else Throw JsonWebTokenError.

Definition lib : Lib :=
  mkLib digest check issue parse
        (fun z => NilZero.string_of_int (Z.to_int z))
        (fun _ => "2025-01-01 00:00:00")
        (fun _ _ => Ok false).

Definition world (uuid : string) : World := mkWorld uuid "salt" 0.

Definition request (auth : option string) (pid : string) (payload : JsVal) : Req :=
  mkReq auth pid payload None.

Definition credentials (name password mail : string) : JsVal :=
  JObj [("username", JStr name); ("password", JStr password); ("email", JStr mail)].

Definition alice : Row :=
  mkRow (SText "u1") (SText "alice") (SText "salt:password1") (SText "a@x.com")
        (SInt 0) (SText "2025-01-01 00:00:00").

Definition root : Row :=
  mkRow (SText "u0") (SText "root") (SText "salt:rootroot") (SText "root@x.com")
        (SInt 1) (SText "2025-01-01 00:00:00").

Definition empty : St := mkSt [] [].

End Sample.

(** ** Requests, responses and stores the properties speak of *)

(** *** Routes *)

(** The routes behind the authentication gate. *)
Definition protected (route : Route) : bool :=
  match route with
  | PostAuthRegister | PostAuthLogin => false
  | _ => true
  end.

(** The authorization predicate and the handler a protected route runs
    after the gate. *)
Definition guard_of (route : Route) : Req -> Step :=
  match route with
  | GetUsers | PostUsers | DeleteUsersId => requireAdmin
  | _ => requireAdminOrOwner
  end.

Definition handler_of (lib : Lib) (w : World) (route : Route) : Req -> M Response :=
  match route with
  | PostAuthRegister => register lib w
  | PostAuthLogin => login lib w
  | GetUsers => list_users lib
  | GetUsersId => get_user lib
  | PostUsers => create_user lib w
  | PutUsersId => update_user lib w
  | DeleteUsersId => delete_user lib w
  end.


(** *** Request bodies *)

(** The request carries a parsed JSON body. *)
Definition has_body (payload : JsVal) : Prop :=
  payload <> JUndefined /\ payload <> JNull.

(** A field is missing, or the password is a string of fewer than eight
    characters. *)
Definition invalid_registration (payload : JsVal) : Prop :=
  js_prop payload "username" = JUndefined \/
  js_prop payload "password" = JUndefined \/
  js_prop payload "email" = JUndefined \/
  exists s, js_prop payload "password" = JStr s /\ (String.length s < 8)%nat.

(** A registration that passes validation: three non-empty strings, the
    password of at least eight characters. *)
Definition valid_registration (payload : JsVal) (n p m : string) : Prop :=
  js_prop payload "username" = JStr n /\ n <> "" /\
  js_prop payload "password" = JStr p /\ (8 <= String.length p)%nat /\
  js_prop payload "email" = JStr m /\ m <> "".

(** A login request that supplies an email and a password. *)
Definition login_attempt (payload : JsVal) (m : string) (p : JsVal) : Prop :=
  js_prop payload "email" = JStr m /\ m <> "" /\
  js_prop payload "password" = p /\ truthy p = true.

(** A field that is absent or a string. *)
Definition string_or_absent (v : JsVal) : Prop :=
  v = JUndefined \/ exists s, v = JStr s.

(** *** The Authorization header and the gate *)

(** A string without a space character. *)
Fixpoint spaceless (s : string) : bool :=
  match s with
  | EmptyString => true
  | String a rest => negb (Ascii.eqb a " ") && spaceless rest
  end.

(** The second of the space-separated words of a header. *)
Definition second_word (h : string) : option string :=
  nth_error (split_on " " h) 1.

(** A header of exactly the form [Bearer <token>]. *)
Definition bearer_form (h : string) : Prop :=
  exists t, t <> "" /\ spaceless t = true /\ h = "Bearer " ++ t.

(** The ways the gate turns a request away. *)
Inductive GateFailure : Type :=
| MissingToken
| InvalidToken
| ExpiredToken
| UnknownSubject.

Definition gate_status (k : GateFailure) : Z :=
  match k with
  | MissingToken | UnknownSubject => 401
  | InvalidToken | ExpiredToken => 403
  end.

(** The header carries no token: it is absent, or it has no second word. *)
Definition tokenless (authHeader : option string) : Prop :=
  match authHeader with
  | None => True
  | Some h => second_word h = None \/ second_word h = Some ""
  end.

(** When each failure arises, for a request against a store: a header
    without a token; a token the verifier rejects for its signature or
    form; a token past its expiry; a verified token whose subject is the id
    of no stored user. *)
Inductive gate_fails (lib : Lib) (w : World) (db : Db) (req : Req) : GateFailure -> Prop :=
| fails_missing :
    tokenless (authorization req) ->
    gate_fails lib w db req MissingToken
| fails_invalid (t : string) (e : JsError) :
    bearer_token (authorization req) = Some t -> t <> "" ->
    jwt_verify lib (w_clock w) t = Throw e ->
    e_name e = "JsonWebTokenError" ->
    gate_fails lib w db req InvalidToken
| fails_expired (t : string) (e : JsError) :
    bearer_token (authorization req) = Some t -> t <> "" ->
    jwt_verify lib (w_clock w) t = Throw e ->
    e_name e = "TokenExpiredError" ->
    gate_fails lib w db req ExpiredToken
| fails_unknown (t : string) (payload : JsObject) (uid : string) :
    bearer_token (authorization req) = Some t -> t <> "" ->
    jwt_verify lib (w_clock w) t = Ok (JObj payload) ->
    field "userId" payload = JStr uid ->
    (forall r, In r db -> id r <> SText uid) ->
    gate_fails lib w db req UnknownSubject.

(** The gate answers with the missing-token response and has called
    nothing: the store and the log of library calls are as they were. *)
Definition rejected_as_missing (lib : Lib) (w : World) (req : Req) (st : St) : Prop :=
  authenticateToken lib w req st = (Ok (Respond token_missing), st).

(** What the [catch] block of the gate answers. *)
Definition gate_catch (error : JsError) : Response :=
  if (e_name error =? "JsonWebTokenError")%string then
    json 403 (error_body "Token inválido")
  else if (e_name error =? "TokenExpiredError")%string then
    json 403 (error_body "Token expirado")
  else json 500 (error_body "Erro ao verificar token").

(** *** Responses *)



(** *** Rows and statements *)

(** The row an INSERT of the id, [n], the digest of [p] and [m] writes. *)
Definition registered_row (lib : Lib) (w : World) (n p m : string) : Row :=
  mkRow (SText (w_uuid w)) (SText n)
        (SText (bcrypt_digest lib p SALT_ROUNDS (w_salt w))) (SText m)
        (SInt 0) (SText (sqlite_current_timestamp lib (w_clock w))).

(** The columns the update handler may set. *)
Definition updatable (c : Column) : bool :=
  match c with
  | c_username | c_password_hash | c_email => true
  | _ => false
  end.

(** What an update of the user [pid] with the body [payload] may do to a
    row [r], giving [r']: a row of another user is left as it is; [id],
    [is_admin] and [created_at] are kept; so is each of [username],
    [password_hash] and [email] whose field the body does not supply. *)
Definition update_frame (payload : JsVal) (pid : string) (r r' : Row) : Prop :=
  (id r <> SText pid -> r' = r) /\
  id r' = id r /\ is_admin r' = is_admin r /\ created_at r' = created_at r /\
  (js_prop payload "username" = JUndefined -> username r' = username r) /\
  (js_prop payload "password" = JUndefined -> password_hash r' = password_hash r) /\
  (js_prop payload "email" = JUndefined -> email r' = email r).

(** The invariant of the store: no two rows with the same email. *)
Definition unique_emails (db : Db) : Prop := NoDup (map email db).


(** *** Further properties: reading routes, roles, round trips *)

(** The routes that only read the store. *)
Definition read_only (route : Route) : bool :=
  match route with
  | PostAuthLogin | GetUsers | GetUsersId => true
  | _ => false
  end.


(** The object [SELECT *] returns for a row, without its hash: what the
    users routes answer with. *)
Definition public_row (r : Row) : JsVal :=
  JObj (omit "password_hash" (project all_columns r)).


(** A field of an update that is [null], absent or a string. *)
Definition null_or_string_or_absent (v : JsVal) : Prop :=
  v = JNull \/ string_or_absent v.

(** A second instance of the libraries, whose verifier also knows a token
    that is not yet valid (["early"]). *)
Module Edge.

Definition parse (clock : Z) (token : string) : Result JsVal :=
  if (token =? "early")%string then Throw (mkError "NotBeforeError" None)
  else Sample.parse clock token.

Definition lib : Lib :=
  mkLib Sample.digest Sample.check Sample.issue parse
        (sqlite_text_of_number Sample.lib)
        (sqlite_current_timestamp Sample.lib)
        (less_than_coerced Sample.lib).

End Edge.
(** * Properties *)

Local Open Scope list_scope.

Arguments get_stmt : simpl never.
Arguments all_stmt : simpl never.
Arguments run_stmt : simpl never.
Arguments bind_parameters : simpl never.

(** ** The handlers on examples *)

Example split_header : split_on " " "Bearer abc" = ["Bearer"; "abc"].
Proof. reflexivity. Qed.

Example split_two_spaces : split_on " " "a  b" = ["a"; ""; "b"].
Proof. reflexivity. Qed.

Example token_of_bearer : bearer_token (Some "Bearer abc") = Some "abc".
Proof. reflexivity. Qed.

Example token_of_bare_scheme : bearer_token (Some "Bearer") = None.
Proof. reflexivity. Qed.

Example constraint_code :
  is_constraint_error (SqliteError "SQLITE_CONSTRAINT_UNIQUE") = true /\
  is_constraint_error (SqliteError "SQLITE_ERROR") = false /\
  is_constraint_error TypeError = false.
Proof. repeat split; reflexivity. Qed.

(** POST /auth/register {username: "alice", password: "password1", email:
    "a@x.com"} on the empty store: the password is hashed, the INSERT that
    names [is_admin] cannot be prepared, and the answer is 500. *)
Example register_alice :
  register Sample.lib (Sample.world "u1")
           (Sample.request None "" (Sample.credentials "alice" "password1" "a@x.com"))
           Sample.empty
  = (Ok (json 500 (JObj [("error", JStr "Erro ao registrar usuário")])),
     mkSt [] [EvHash (JStr "password1") 10]).
Proof. reflexivity. Qed.

(** POST /auth/login {email: "a@x.com", password: "wrong"}: 401. *)
Example login_wrong_password :
  fst (login Sample.lib (Sample.world "x")
             (Sample.request None ""
                (JObj [("email", JStr "a@x.com"); ("password", JStr "wrong")]))
             (mkSt [Sample.alice] []))
  = Ok (json 401 (JObj [("error", JStr "Credenciais inválidas")])).
Proof. reflexivity. Qed.

(** GET /users/:id with alice's token: the token is verified, the SELECT
    of the gate cannot be prepared, and the answer is 500. *)
Example alice_token_answered_500 :
  serve Sample.lib (Sample.world "x") GetUsersId
        (Sample.request (Some "Bearer jwt.u1") "u1" JUndefined)
        (mkSt [Sample.root; Sample.alice] [])
  = (Ok (json 500 (JObj [("error", JStr "Erro ao verificar token")])),
     mkSt [Sample.root; Sample.alice] [EvVerify "jwt.u1"]).
Proof. reflexivity. Qed.

(** The handler of GET /users/:id on alice's id. *)
Example lookup_of_alice :
  fst (get_user Sample.lib (Sample.request None "u1" JUndefined)
                (mkSt [Sample.root; Sample.alice] []))
  = Ok (json 200 (JObj [("id", JStr "u1"); ("username", JStr "alice");
                        ("email", JStr "a@x.com"); ("is_admin", JNum 0);
                        ("created_at", JStr "2025-01-01 00:00:00")])).
Proof. reflexivity. Qed.

(** The handler of PUT /users/:id with the email of another user: 400,
    nothing written. *)
Example update_to_taken_email :
  update_user Sample.lib (Sample.world "x")
              (Sample.request None "u1" (JObj [("email", JStr "root@x.com")]))
              (mkSt [Sample.root; Sample.alice] [])
  = (Ok email_in_use, mkSt [Sample.root; Sample.alice] []).
Proof. reflexivity. Qed.

(** The handler of DELETE /users/:id: 204 and the row is gone. *)
Example deletion_of_alice :
  delete_user Sample.lib (Sample.world "x") (Sample.request None "u1" JUndefined)
              (mkSt [Sample.root; Sample.alice] [])
  = (Ok (send 204), mkSt [Sample.root] []).
Proof. reflexivity. Qed.

(** An array for a field is spread over the parameters of the statement:
    here the digest of the password lands in [username] and the first
    element of [email] in [password_hash]. *)
Example update_with_arrays :
  st_db (snd (update_user Sample.lib (Sample.world "x")
                (Sample.request None "u1"
                   (JObj [("username", JArr []); ("password", JStr "x");
                          ("email", JArr [JStr "u"; JStr "e"])]))
                (mkSt [Sample.alice] [])))
  = [mkRow (SText "u1") (SText "salt:x") (SText "u") (SText "e") (SInt 0)
           (SText "2025-01-01 00:00:00")].
Proof. reflexivity. Qed.

(** ** Basic facts *)

Lemma string_eqb_refl (s : string) : (s =? s)%string = true.
Proof. apply String.eqb_eq. reflexivity. Qed.

Lemma string_eqb_false (s t : string) : s <> t -> (s =? t)%string = false.
Proof. intro H. apply String.eqb_neq. exact H. Qed.

Lemma truthy_string (s : string) : s <> "" -> truthy (JStr s) = true.
Proof. intro N. simpl. rewrite (string_eqb_false _ _ N). reflexivity. Qed.

Lemma sql_eqb_eq (a b : SqlVal) : sql_eqb a b = true <-> a = b.
Proof.
  destruct a, b; simpl; split; intro H; try discriminate; try reflexivity.
  - apply Z.eqb_eq in H. congruence.
  - inversion H. apply Z.eqb_refl.
  - apply String.eqb_eq in H. congruence.
  - inversion H. apply string_eqb_refl.
Qed.

Lemma sql_eqb_refl (a : SqlVal) : sql_eqb a a = true.
Proof. apply sql_eqb_eq. reflexivity. Qed.

Lemma has_key_omit (k : string) (o : JsObject) : has_key k (omit k o) = false.
Proof.
  unfold has_key, omit.
  induction o as [|[k' v] o IH]; simpl; [reflexivity|].
  destruct (k' =? k)%string eqn:E; simpl; [exact IH|].
  rewrite E. exact IH.
Qed.

Lemma strict_eq_string_spec (v : JsVal) (s : string) :
  strict_eq_string v s = true <-> v = JStr s.
Proof.
  destruct v; simpl; split; intro H; try discriminate.
  - apply String.eqb_eq in H. congruence.
  - inversion H. apply string_eqb_refl.
Qed.

Lemma member_has_body (payload : JsVal) (k : string) :
  has_body payload -> member payload k = Ok (js_prop payload k).
Proof.
  intros [U N]. destruct payload; try reflexivity; contradiction.
Qed.

Lemma member_ok (payload : JsVal) (k : string) (v : JsVal) :
  member payload k = Ok v -> v = js_prop payload k /\ has_body payload.
Proof.
  destruct payload; simpl; intro H; inversion H; (split; [reflexivity|]);
    split; discriminate.
Qed.

Lemma js_prop_has_body (payload : JsVal) (k : string) (v : JsVal) :
  js_prop payload k = v -> v <> JUndefined -> has_body payload.
Proof.
  intros H N. split; intro E; subst payload; simpl in H; congruence.
Qed.

Lemma find_none_iff {A} (f : A -> bool) (l : list A) :
  find f l = None <-> forall x, In x l -> f x = false.
Proof.
  split.
  - apply find_none.
  - induction l as [|a l IH]; simpl; intro H; [reflexivity|].
    rewrite (H a (or_introl eq_refl)). apply IH. intros x Hx. apply H. right. exact Hx.
Qed.

Lemma NoDup_map_injective {A B} (f : A -> B) (l : list A) (a b : A) :
  NoDup (map f l) -> In a l -> In b l -> f a = f b -> a = b.
Proof.
  induction l as [|x l IH]; simpl; intros N Ia Ib E; [contradiction|].
  inversion N as [|y ys Nx Nl]; subst.
  destruct Ia as [Ia|Ia], Ib as [Ib|Ib]; subst.
  - reflexivity.
  - exfalso. apply Nx. rewrite E. apply in_map. exact Ib.
  - exfalso. apply Nx. rewrite <- E. apply in_map. exact Ia.
  - apply IH; assumption.
Qed.

Lemma Forall2_map_right {A B} (P : A -> B -> Prop) (f : A -> B) (l : list A) :
  (forall a, In a l -> P a (f a)) -> Forall2 P l (map f l).
Proof.
  induction l as [|a l IH]; simpl; intro H; constructor.
  - apply H. left. reflexivity.
  - apply IH. intros x I. apply H. right. exact I.
Qed.

Lemma Forall2_same {A} (P : A -> A -> Prop) (l : list A) :
  (forall a, P a a) -> Forall2 P l l.
Proof. intro H. induction l; constructor; auto. Qed.

Lemma log_grows (l : list Event) (ev : Event) : (l ++ [ev])%list <> l.
Proof.
  intro H. apply (f_equal (@List.length Event)) in H.
  rewrite length_app in H. simpl in H. lia.
Qed.

(** ** Running a handler, one test at a time *)

(** What [db.prepare] answers for each statement of the handlers is
    computed, the table being the one [initializeDatabase] creates. *)
Ltac prepared :=
  repeat match goal with
         | |- context [prepare initializeDatabase ?q] =>
             let r := eval cbv in (prepare initializeDatabase q) in
             lazymatch r with
             | Ok _ => change (prepare initializeDatabase q) with (@Ok Stmt q)
             | Throw _ => change (prepare initializeDatabase q) with r
             end
         end;
  cbv beta iota.

(** Case analysis on the first test of a run [m st = _] that does not
    itself contain one: the tests of a handler, in the order it makes them. *)
Ltac step :=
  match goal with
  | |- context [prepare initializeDatabase _] => progress prepared
  | |- ?lhs = _ -> _ =>
      match lhs with
      | context [match ?x with _ => _ end] =>
          lazymatch x with
          | context [match _ with _ => _ end] => fail
          | _ => let E := fresh "E" in destruct x eqn:E; simpl
          end
      end
  end.

(** Unfold a handler down to the calls it makes. *)
Ltac unfold_handler :=
  cbv beta iota zeta delta
      [register login list_users get_user create_user update_user delete_user
       try_catch bind lift ret throw run exec get all query sign verify db_prepare
       bcrypt_hash bcrypt_compare without_password emit];
  prepared.

Ltac finish :=
  let H := fresh "H" in
  intro H; inversion H; subst; clear H.

(** ** The binder and the statements *)

Lemma bind_args_snoc (args : list JsVal) :
  forall (b : bool) (v : JsVal) (x : SqlVal) (vs : list SqlVal),
    bind_value v = Ok x ->
    bind_args b (args ++ [v]) = Ok vs ->
    exists vs0, vs = (vs0 ++ [x])%list.
Proof.
  induction args as [|a args IH]; intros b v x vs V H.
  - exists []. destruct v; simpl in V; try discriminate V;
      simpl in H; inversion V; subst; inversion H; reflexivity.
  - destruct a; simpl in H;
      try (destruct (bind_args b (args ++ [v])) as [ys|e] eqn:R; simpl in H;
           [|discriminate H]; inversion H; subst;
           destruct (IH _ _ _ _ V R) as [vs0 ->];
           eexists (_ :: vs0); reflexivity).
    + destruct (bind_array items) as [xs|e]; simpl in H; [|discriminate H].
      destruct (bind_args b (args ++ [v])) as [ys|e] eqn:R; simpl in H; [|discriminate H].
      inversion H; subst. destruct (IH _ _ _ _ V R) as [vs0 ->].
      exists (xs ++ vs0)%list. apply app_assoc.
    + destruct b; [discriminate H|]. exact (IH _ _ _ _ V H).
Qed.

Lemma bind_parameters_snoc (n : nat) (args : list JsVal) (v : JsVal) (x : SqlVal)
      (vs : list SqlVal) :
  bind_value v = Ok x ->
  bind_parameters (S n) (args ++ [v]) = Ok vs ->
  exists vs0, vs = (vs0 ++ [x])%list /\ List.length vs0 = n.
Proof.
  unfold bind_parameters. intros V H.
  destruct (bind_args false (args ++ [v])) as [ws|e] eqn:R; simpl in H; [|discriminate H].
  destruct (Nat.eqb (List.length ws) (S n)) eqn:L; [|discriminate H].
  inversion H; subst. destruct (bind_args_snoc _ _ _ _ _ V R) as [vs0 ->].
  exists vs0. split; [reflexivity|].
  apply Nat.eqb_eq in L. rewrite length_app in L. simpl in L. lia.
Qed.

Lemma bind_strings (b : bool) (ss : list string) :
  bind_args b (map JStr ss) = Ok (map SText ss).
Proof.
  induction ss as [|s ss IH]; simpl; [reflexivity|]. rewrite IH. reflexivity.
Qed.

Lemma matches_id_text (lib : Lib) (uid : string) (r : Row) :
  matches lib c_id (SText uid) r = sql_eqb (id r) (SText uid).
Proof. reflexivity. Qed.

Lemma matches_email_text (lib : Lib) (m : string) (r : Row) :
  matches lib c_email (SText m) r = sql_eqb (email r) (SText m).
Proof. reflexivity. Qed.

Lemma get_by_text (lib : Lib) (c : Column) (s : string) (db : Db) :
  get_stmt lib (SelectAll (Some c)) [JStr s] db =
  Ok (option_map (project all_columns) (find (matches lib c (SText s)) db)).
Proof. reflexivity. Qed.

Lemma prepare_select_all (k : option Column) :
  k <> Some c_is_admin ->
  prepare initializeDatabase (SelectAll k) = Ok (SelectAll k).
Proof. destruct k as [[]|]; intro H; try reflexivity. destruct (H eq_refl). Qed.

Lemma prepare_delete_user_by_id :
  prepare initializeDatabase delete_user_by_id = Ok delete_user_by_id.
Proof. reflexivity. Qed.

Lemma prepare_update (cols : list Column) :
  forallb updatable cols = true ->
  prepare initializeDatabase (UpdateSet cols c_id) = Ok (UpdateSet cols c_id).
Proof.
  intro U. unfold prepare.
  replace (prepares initializeDatabase (statement_columns (UpdateSet cols c_id))) with true;
    [reflexivity|].
  symmetry. unfold prepares. cbn [statement_columns]. rewrite forallb_app.
  apply andb_true_iff. split; [|reflexivity].
  apply forallb_forall. intros c I.
  pose proof (proj1 (forallb_forall _ _) U c I) as K.
  destruct c; try discriminate K; reflexivity.
Qed.

Lemma find_by_id_absent (lib : Lib) (uid : string) (db : Db) :
  (forall r, In r db -> id r <> SText uid) ->
  find (matches lib c_id (SText uid)) db = None.
Proof.
  intro H. apply find_none_iff. intros r Hr. rewrite matches_id_text.
  destruct (sql_eqb (id r) (SText uid)) eqn:E; [|reflexivity].
  apply sql_eqb_eq in E. exfalso. exact (H r Hr E).
Qed.

Lemma find_by_id_present (lib : Lib) (uid : string) (db : Db) :
  (exists r, In r db /\ id r = SText uid) ->
  exists r, find (matches lib c_id (SText uid)) db = Some r.
Proof.
  intros [r0 [I E]].
  destruct (find (matches lib c_id (SText uid)) db) as [r|] eqn:F; [exists r; reflexivity|].
  exfalso. pose proof (find_none _ _ F r0 I) as M.
  rewrite matches_id_text, E, sql_eqb_refl in M. discriminate.
Qed.

Lemma find_by_email_absent (lib : Lib) (m : string) (db : Db) :
  (forall r, In r db -> email r <> SText m) ->
  find (matches lib c_email (SText m)) db = None.
Proof.
  intro H. apply find_none_iff. intros r Hr. rewrite matches_email_text.
  destruct (sql_eqb (email r) (SText m)) eqn:E; [|reflexivity].
  apply sql_eqb_eq in E. exfalso. exact (H r Hr E).
Qed.

Lemma find_by_email_present (lib : Lib) (m : string) (db : Db) :
  (exists r, In r db /\ email r = SText m) ->
  exists r, find (matches lib c_email (SText m)) db = Some r /\
            In r db /\ email r = SText m.
Proof.
  intros [r0 [I0 E0]].
  destruct (find (matches lib c_email (SText m)) db) as [r|] eqn:F.
  - exists r. split; [reflexivity|]. apply find_some in F. destruct F as [I M].
    split; [exact I|]. rewrite matches_email_text in M. apply sql_eqb_eq. exact M.
  - exfalso. pose proof (find_none _ _ F r0 I0) as M.
    rewrite matches_email_text, E0, sql_eqb_refl in M. discriminate.
Qed.

Lemma occurrences_app (c : Column) (v : SqlVal) (db : Db) (r : Row) :
  occurrences c v (db ++ [r])
  = (occurrences c v db + (if sql_eqb (col_value c r) v then 1 else 0))%nat.
Proof.
  unfold occurrences. rewrite filter_app, length_app. simpl.
  destruct (sql_eqb (col_value c r) v); reflexivity.
Qed.

Lemma occurrences_cons (x : SqlVal) (r : Row) (db : Db) :
  occurrences c_email x (r :: db)
  = ((if sql_eqb (email r) x then 1 else 0) + occurrences c_email x db)%nat.
Proof.
  unfold occurrences. simpl. destruct (sql_eqb (email r) x); reflexivity.
Qed.

Lemma occurrences_present (c : Column) (v : SqlVal) (db : Db) (r : Row) :
  In r db -> col_value c r = v -> (1 <= occurrences c v db)%nat.
Proof.
  unfold occurrences. intros I E.
  assert (F : In r (filter (fun r0 => sql_eqb (col_value c r0) v) db)).
  { apply filter_In. split; [exact I|]. rewrite E. apply sql_eqb_refl. }
  destruct (filter _ db); [contradiction|]. simpl. lia.
Qed.

Lemma occurrences_absent (c : Column) (v : SqlVal) (db : Db) :
  (forall r, In r db -> col_value c r <> v) -> occurrences c v db = 0%nat.
Proof.
  unfold occurrences. intro H.
  induction db as [|r db IH]; simpl; [reflexivity|].
  destruct (sql_eqb (col_value c r) v) eqn:E.
  - apply sql_eqb_eq in E. exfalso. exact (H r (or_introl eq_refl) E).
  - apply IH. intros r0 I. apply H. right. exact I.
Qed.



Lemma check_constraints_single (db : Db) (r : Row) :
  check_constraints db [r] =
  if violates_not_null r then Throw (SqliteError "SQLITE_CONSTRAINT_NOTNULL")
  else if violates_unique c_id db r then Throw (SqliteError "SQLITE_CONSTRAINT_PRIMARYKEY")
  else if violates_unique c_email db r then Throw (SqliteError "SQLITE_CONSTRAINT_UNIQUE")
  else Ok tt.
Proof.
  unfold check_constraints. cbn [existsb]. rewrite !orb_false_r. reflexivity.
Qed.


Lemma not_null_email (r : Row) : violates_not_null r = false -> email r <> SNull.
Proof.
  unfold violates_not_null. simpl. intros H E. rewrite E in H. simpl in H.
  destruct (is_null (username r)), (is_null (password_hash r)); discriminate H.
Qed.

(** A row that passed the checks occurs once, by its email, in the
    relation it was written to. *)
Lemma checked_row_unique (db : Db) (written : list Row) (r : Row) :
  check_constraints db written = Ok tt -> In r written ->
  (occurrences c_email (email r) db <= 1)%nat.
Proof.
  unfold check_constraints. intros H I.
  destruct (existsb violates_not_null written) eqn:N; [discriminate H|].
  destruct (existsb (violates_unique c_id db) written); [discriminate H|].
  destruct (existsb (violates_unique c_email db) written) eqn:U; [discriminate H|].
  assert (Nr : violates_not_null r = false).
  { destruct (violates_not_null r) eqn:V; [|reflexivity].
    assert (X : existsb violates_not_null written = true)
      by (apply existsb_exists; exists r; split; assumption).
    congruence. }
  assert (Ur : violates_unique c_email db r = false).
  { destruct (violates_unique c_email db r) eqn:V; [|reflexivity].
    assert (X : existsb (violates_unique c_email db) written = true)
      by (apply existsb_exists; exists r; split; assumption).
    congruence. }
  unfold violates_unique in Ur. simpl in Ur.
  destruct (email r) eqn:E; [exfalso; exact (not_null_email r Nr E)| |];
    simpl in Ur; apply Nat.ltb_ge in Ur; exact Ur.
Qed.

Lemma col_value_set_other (c c' : Column) (v : SqlVal) (r : Row) :
  c <> c' -> col_value c (set_col c' v r) = col_value c r.
Proof. destruct c, c'; intro H; try reflexivity; contradiction. Qed.

Lemma assign_other (lib : Lib) (c : Column) (cols : list Column) :
  ~ In c cols ->
  forall (vs : list SqlVal) (r : Row),
    col_value c (assign lib cols vs r) = col_value c r.
Proof.
  induction cols as [|c' cols IH]; intros N vs r; [reflexivity|].
  destruct vs as [|v vs]; [reflexivity|]. simpl.
  rewrite IH.
  - apply col_value_set_other. intro E. apply N. left. symmetry. exact E.
  - intro I. apply N. right. exact I.
Qed.

(** ** The header and the gate *)

Lemma split_on_spaceless (t : string) :
  spaceless t = true -> split_on " " t = [t].
Proof.
  induction t as [|a t IH]; simpl; intro H; [reflexivity|].
  apply andb_true_iff in H. destruct H as [A T].
  apply negb_true_iff in A. rewrite A, (IH T). reflexivity.
Qed.

Lemma split_on_word (a rest : string) :
  spaceless a = true -> split_on " " (a ++ " " ++ rest)%string = a :: split_on " " rest.
Proof.
  induction a as [|c a IH]; simpl; intro H; [reflexivity|].
  apply andb_true_iff in H. destruct H as [C A].
  apply negb_true_iff in C. rewrite C. simpl in IH. rewrite (IH A). reflexivity.
Qed.

Lemma bearer_token_of_header (scheme t : string) :
  spaceless scheme = true -> spaceless t = true ->
  bearer_token (Some (scheme ++ " " ++ t)%string) = Some t.
Proof.
  intros A T. unfold bearer_token.
  rewrite (split_on_word _ _ A), (split_on_spaceless _ T).
  destruct scheme; reflexivity.
Qed.

Lemma no_token_tokenless (authHeader : option string) :
  no_token (bearer_token authHeader) = true <-> tokenless authHeader.
Proof.
  unfold tokenless, second_word, bearer_token.
  destruct authHeader as [h|]; [|split; reflexivity].
  destruct (h =? "")%string eqn:H0.
  - apply String.eqb_eq in H0. subst h. simpl. split; [left|]; reflexivity.
  - destruct (nth_error (split_on " " h) 1) as [t|]; simpl.
    + split.
      * intro T. apply String.eqb_eq in T. subst t. right. reflexivity.
      * intros [T|T]; [discriminate T|]. inversion T. reflexivity.
    + split; [left|]; reflexivity.
Qed.

Lemma gate_without_token (lib : Lib) (w : World) (req : Req) (st : St) :
  no_token (bearer_token (authorization req)) = true ->
  authenticateToken lib w req st = (Ok (Respond token_missing), st).
Proof.
  intro H. unfold authenticateToken, try_catch. cbv zeta.
  rewrite H. reflexivity.
Qed.

(** With a token the gate calls the verifier once; what the verifier
    accepts then meets a SELECT that cannot be prepared. *)
Lemma gate_with_token (lib : Lib) (w : World) (req : Req) (st : St) (t : string) :
  bearer_token (authorization req) = Some t -> t <> "" ->
  authenticateToken lib w req st =
  let st1 := mkSt (st_db st) (st_log st ++ [EvVerify t])%list in
  match jwt_verify lib (w_clock w) t with
  | Throw e => (Ok (Respond (gate_catch e)), st1)
  | Ok _ => (Ok (Respond (json 500 (error_body "Erro ao verificar token"))), st1)
  end.
Proof.
  intros B N.
  unfold authenticateToken, try_catch, verify, db_prepare, bind, lift, emit, ret, gate_catch.
  cbv zeta. rewrite B. cbv beta iota delta [no_token].
  rewrite (string_eqb_false _ _ N). simpl.
  destruct (jwt_verify lib (w_clock w) t) as [decoded|e]; simpl.
  - reflexivity.
  - destruct (e_name e =? "JsonWebTokenError")%string; [reflexivity|].
    destruct (e_name e =? "TokenExpiredError")%string; reflexivity.
Qed.

Lemma gate_with_token_log (lib : Lib) (w : World) (req : Req) (st : St) (t : string) :
  bearer_token (authorization req) = Some t -> t <> "" ->
  exists step,
    authenticateToken lib w req st
    = (Ok step, mkSt (st_db st) (st_log st ++ [EvVerify t])%list).
Proof.
  intros B N. rewrite (gate_with_token lib w req st t B N). cbv zeta.
  destruct (jwt_verify lib (w_clock w) t); eexists; reflexivity.
Qed.

(** The gate answers every request itself and writes nothing. *)
Lemma gate_responds (lib : Lib) (w : World) (req : Req) (st : St) :
  exists res st1,
    authenticateToken lib w req st = (Ok (Respond res), st1) /\
    st_db st1 = st_db st /\
    (status res = 401 \/ status res = 403 \/ status res = 500).
Proof.
  destruct (no_token (bearer_token (authorization req))) eqn:T.
  - exists token_missing, st. split; [apply gate_without_token; exact T|].
    split; [reflexivity|]. left. reflexivity.
  - destruct (bearer_token (authorization req)) as [t|] eqn:B; [|discriminate T].
    simpl in T. apply String.eqb_neq in T.
    rewrite (gate_with_token lib w req st t B T). cbv zeta.
    destruct (jwt_verify lib (w_clock w) t) as [decoded|e]; eexists; eexists;
      (split; [reflexivity|]); (split; [reflexivity|]).
    + right. right. reflexivity.
    + unfold gate_catch.
      destruct (e_name e =? "JsonWebTokenError")%string; [right; left; reflexivity|].
      destruct (e_name e =? "TokenExpiredError")%string;
        [right; left; reflexivity | right; right; reflexivity].
Qed.

Lemma serve_protected (lib : Lib) (w : World) (route : Route) (req : Req) (st : St) :
  protected route = true ->
  serve lib w route req st =
  match authenticateToken lib w req st with
  | (Ok (Respond res), st1) => (Ok res, st1)
  | (Ok (Next req1), st1) =>
      match guard_of route req1 with
      | Respond res => (Ok res, st1)
      | Next req2 => handler_of lib w route req2 st1
      end
  | (Throw e, st1) => (Throw e, st1)
  end.
Proof.
  intro P.
  destruct route; try discriminate P;
    unfold serve, through, pure_mw, bind, ret, guard_of, handler_of;
    destruct (authenticateToken lib w req st) as [[[req1|res]|e] st1];
    try reflexivity;
    match goal with
    | |- context [requireAdmin req1] => destruct (requireAdmin req1); reflexivity
    | |- context [requireAdminOrOwner req1] => destruct (requireAdminOrOwner req1); reflexivity
    end.
Qed.

Lemma serve_rejected_at_gate (lib : Lib) (w : World) (route : Route) (req : Req)
      (st st1 : St) (res : Response) :
  protected route = true ->
  authenticateToken lib w req st = (Ok (Respond res), st1) ->
  serve lib w route req st = (Ok res, st1).
Proof.
  intros P G. rewrite (serve_protected _ _ _ _ _ P), G. reflexivity.
Qed.

(** So a route behind the gate never reaches its predicate or handler. *)
Lemma serve_at_gate (lib : Lib) (w : World) (route : Route) (req : Req) (st : St) :
  protected route = true ->
  exists res st1,
    serve lib w route req st = (Ok res, st1) /\
    authenticateToken lib w req st = (Ok (Respond res), st1) /\
    st_db st1 = st_db st /\
    (status res = 401 \/ status res = 403 \/ status res = 500).
Proof.
  intro P. destruct (gate_responds lib w req st) as [res [st1 [G [D S]]]].
  exists res, st1. split; [exact (serve_rejected_at_gate lib w route req st st1 res P G)|].
  split; [exact G|]. split; assumption.
Qed.

(** ** C1: the authorization predicates *)

(** C1. With a user attached to the request, [requireAdmin] calls [next()]
    exactly when the user's [is_admin] is set and otherwise responds 403;
    [requireAdminOrOwner] calls [next()] exactly when [is_admin] is set or
    the user's id is the [:id] parameter and otherwise responds 403; with
    no user attached both respond 401 and do not call [next()]. *)
Theorem authorization_predicates (auth : option string) (pid : string) (payload : JsVal) :
  (forall u : JsObject,
      let req := mkReq auth pid payload (Some u) in
      let admin := truthy (field "is_admin" u) = true in
      let owner := field "id" u = JStr pid in
      (requireAdmin req = Next req <-> admin) /\
      (requireAdmin req = Next req \/
       exists res, requireAdmin req = Respond res /\ status res = 403) /\
      (requireAdminOrOwner req = Next req <-> admin \/ owner) /\
      (requireAdminOrOwner req = Next req \/
       exists res, requireAdminOrOwner req = Respond res /\ status res = 403)) /\
  (let req := mkReq auth pid payload None in
   (exists res, requireAdmin req = Respond res /\ status res = 401) /\
   (exists res, requireAdminOrOwner req = Respond res /\ status res = 401)).
Proof.
  split.
  - intros u req admin owner. subst req admin owner.
    unfold requireAdmin, requireAdminOrOwner. simpl.
    destruct (truthy (field "is_admin" u)) eqn:A; simpl.
    + repeat split; auto.
    + destruct (strict_eq_string (field "id" u) pid) eqn:O; simpl.
      * apply strict_eq_string_spec in O.
        repeat split; try discriminate; auto.
        right. eexists. split; reflexivity.
      * assert (N : field "id" u <> JStr pid).
        { intro E. apply strict_eq_string_spec in E. congruence. }
        repeat split; try discriminate.
        -- right. eexists. split; reflexivity.
        -- intros [H|H]; [discriminate | contradiction].
        -- right. eexists. split; reflexivity.
  - simpl. split; eexists; split; reflexivity.
Qed.

(** ** C2: no response carries a password hash *)






(** ** C3: the statuses of the gate *)

(** C3, on the code: on every protected route a request the gate turns
    away is answered by the gate itself and the store is left as it was;
    the status is 401 when the token is missing and 403 when its signature
    is invalid or it has expired, but a verified token whose subject is the
    id of no stored user is answered 500, not 401: the SELECT that would
    look the subject up names [is_admin], which the table
    [initializeDatabase] creates does not have, so it cannot be prepared. *)
Theorem gate_statuses_on_created_table
        (lib : Lib) (w : World) (st : St) (req : Req) (k : GateFailure) (route : Route) :
  gate_fails lib w (st_db st) req k ->
  protected route = true ->
  exists res st',
    serve lib w route req st = (Ok res, st') /\
    authenticateToken lib w req st = (Ok (Respond res), st') /\
    status res = match k with
                 | UnknownSubject => 500
                 | _ => gate_status k
                 end /\
    st_db st' = st_db st.
Proof.
  intros F P.
  assert (G : exists res st',
             authenticateToken lib w req st = (Ok (Respond res), st') /\
             status res = match k with
                          | UnknownSubject => 500
                          | _ => gate_status k
                          end /\ st_db st' = st_db st).
  { destruct F as [A | t e B N V E | t e B N V E | t payload uid B N V U A].
    - exists token_missing, st. split; [|split; reflexivity].
      apply gate_without_token. apply no_token_tokenless. exact A.
    - rewrite (gate_with_token lib w req st t B N), V. simpl.
      eexists. eexists. split; [reflexivity|].
      unfold gate_catch. rewrite E. split; reflexivity.
    - rewrite (gate_with_token lib w req st t B N), V. simpl.
      eexists. eexists. split; [reflexivity|].
      unfold gate_catch. rewrite E. split; reflexivity.
    - rewrite (gate_with_token lib w req st t B N), V. simpl.
      eexists. eexists. split; [reflexivity|]. split; reflexivity. }
  destruct G as [res [st' [G [S D]]]].
  exists res, st'. split; [|split; [exact G|split; assumption]].
  apply serve_rejected_at_gate; assumption.
Qed.

Lemma gate_statuses_on_created_table_witness :
  exists res st',
    serve Sample.lib (Sample.world "y") GetUsersId
          (Sample.request (Some "Bearer jwt.u1") "u1" JUndefined)
          (mkSt [Sample.root] []) = (Ok res, st') /\
    authenticateToken Sample.lib (Sample.world "y")
          (Sample.request (Some "Bearer jwt.u1") "u1" JUndefined)
          (mkSt [Sample.root] [])
      = (Ok (Respond res), st') /\
    status res = 500 /\
    st_db st' = [Sample.root].
Proof.
  apply (gate_statuses_on_created_table Sample.lib (Sample.world "y")
           (mkSt [Sample.root] [])
           (Sample.request (Some "Bearer jwt.u1") "u1" JUndefined)
           UnknownSubject GetUsersId).
  - apply (fails_unknown _ _ _ _ "jwt.u1" [("userId", JStr "u1")] "u1").
    + reflexivity.
    + discriminate.
    + reflexivity.
    + reflexivity.
    + intros r H. destruct H as [H|[]]. subst r. discriminate.
  - reflexivity.
Defined.

(** ** C4: what an update may change *)

(** The UPDATE of the handler writes only the rows whose id is the last
    argument, and in them only the columns it sets. *)
Lemma update_statement_effect (lib : Lib) (w : World) (cols : list Column)
      (args : list JsVal) (pid : string) (db db' : Db) :
  run_stmt lib w (UpdateSet cols c_id) (args ++ [JStr pid]) db = Ok db' ->
  Forall2 (fun r r' => (id r <> SText pid -> r' = r) /\
                       forall c, ~ In c cols -> col_value c r' = col_value c r)
          db db'.
Proof.
  unfold run_stmt, parameter_count.
  destruct (bind_parameters (S (List.length cols)) (args ++ [JStr pid])) as [vs|e] eqn:B;
    [|discriminate].
  destruct (bind_parameters_snoc _ args (JStr pid) (SText pid) vs eq_refl B) as [vs0 [-> L]].
  cbn [rbind]. rewrite last_last.
  destruct (check_constraints _ _); [|discriminate].
  cbn [rbind]. intro H. inversion H; subst; clear H.
  apply Forall2_map_right. intros r _. rewrite matches_id_text.
  destruct (sql_eqb (id r) (SText pid)) eqn:E.
  - split.
    + intro N. apply sql_eqb_eq in E. contradiction.
    + intros c N. apply assign_other. exact N.
  - split; reflexivity.
Qed.

Lemma update_frame_same (payload : JsVal) (pid : string) (r : Row) :
  update_frame payload pid r r.
Proof. unfold update_frame. repeat split; reflexivity. Qed.

Lemma not_in_columns (c : Column) (cols : list Column) :
  existsb (column_eqb c) cols = false -> ~ In c cols.
Proof.
  intros H I. assert (X : existsb (column_eqb c) cols = true).
  { apply existsb_exists. exists c. split; [exact I|]. destruct c; reflexivity. }
  congruence.
Qed.

Lemma not_updatable_not_in (c : Column) (cols : list Column) :
  forallb updatable cols = true -> updatable c = false -> ~ In c cols.
Proof.
  intros F U I. rewrite forallb_forall in F. specialize (F c I). congruence.
Qed.

(** From the effect of the statement to the frame of the update: a column
    is set only if its field is defined in the body. *)
Lemma frame_of_effect (payload : JsVal) (pid : string) (cols : list Column)
      (u p e : JsVal) (db db' : Db) :
  member payload "username" = Ok u ->
  member payload "password" = Ok p ->
  member payload "email" = Ok e ->
  (existsb (column_eqb c_username) cols = true -> defined u = true) ->
  (existsb (column_eqb c_password_hash) cols = true -> defined p = true) ->
  (existsb (column_eqb c_email) cols = true -> defined e = true) ->
  forallb updatable cols = true ->
  Forall2 (fun r r' => (id r <> SText pid -> r' = r) /\
                       forall c, ~ In c cols -> col_value c r' = col_value c r)
          db db' ->
  Forall2 (update_frame payload pid) db db'.
Proof.
  intros Mu Mp Me Du Dp De F H.
  apply member_ok in Mu, Mp, Me. destruct Mu as [-> _], Mp as [-> _], Me as [-> _].
  induction H as [|r r' db db' [Hr Hc] H IH]; constructor; [|exact IH].
  unfold update_frame. split; [exact Hr|].
  split; [apply (Hc c_id); apply (not_updatable_not_in _ _ F); reflexivity|].
  split; [apply (Hc c_is_admin); apply (not_updatable_not_in _ _ F); reflexivity|].
  split; [apply (Hc c_created_at); apply (not_updatable_not_in _ _ F); reflexivity|].
  split; [|split].
  - intro U. apply (Hc c_username). apply not_in_columns.
    destruct (existsb (column_eqb c_username) cols); [|reflexivity].
    specialize (Du eq_refl). rewrite U in Du. discriminate Du.
  - intro U. apply (Hc c_password_hash). apply not_in_columns.
    destruct (existsb (column_eqb c_password_hash) cols); [|reflexivity].
    specialize (Dp eq_refl). rewrite U in Dp. discriminate Dp.
  - intro U. apply (Hc c_email). apply not_in_columns.
    destruct (existsb (column_eqb c_email) cols); [|reflexivity].
    specialize (De eq_refl). rewrite U in De. discriminate De.
Qed.

Ltac field_defined :=
  simpl; first [discriminate | intros _; first [assumption | reflexivity]].

Lemma update_user_frame (lib : Lib) (w : World) (req : Req) (st st' : St) (res : Response) :
  update_user lib w req st = (Ok res, st') ->
  Forall2 (update_frame (req_body req) (params_id req)) (st_db st) (st_db st').
Proof.
  unfold_handler.
  repeat step.
  all: finish; cbn [st_db].
  all: try (apply Forall2_same; apply update_frame_same).
  all: match goal with
       | E : run_stmt _ _ (UpdateSet ?cols _) _ _ = Ok _ |- _ =>
           eapply (frame_of_effect _ _ cols);
             [ eassumption | eassumption | eassumption
             | field_defined | field_defined | field_defined
             | reflexivity
             | first [ exact (update_statement_effect lib w _ [_] _ _ _ E)
                     | exact (update_statement_effect lib w _ [_; _] _ _ _ E)
                     | exact (update_statement_effect lib w _ [_; _; _] _ _ _ E) ] ]
       end.
Qed.

Lemma update_statement_strings (lib : Lib) (w : World) (cols : list Column)
      (ss : list string) (pid : string) (db db' : Db) :
  run_stmt lib w (UpdateSet cols c_id) (map JStr ss ++ [JStr pid]) db = Ok db' ->
  db' = map (fun r => if matches lib c_id (SText pid) r
                      then assign lib cols (map SText ss ++ [SText pid]) r else r) db.
Proof.
  unfold run_stmt, parameter_count, bind_parameters.
  change (map JStr ss ++ [JStr pid]) with (map JStr ss ++ map JStr [pid]).
  rewrite <- map_app, bind_strings. cbn [rbind].
  replace (map SText (ss ++ [pid])) with (map SText ss ++ [SText pid])
    by (rewrite map_app; reflexivity).
  destruct (Nat.eqb _ _); [|discriminate]. cbn [rbind].
  rewrite last_last.
  destruct (check_constraints _ _); [|discriminate]. cbn [rbind].
  intro H. inversion H. reflexivity.
Qed.

(** With string fields, a supplied password reaches the row as its bcrypt
    digest. *)
Lemma update_user_hashes (lib : Lib) (w : World) (req : Req) (st st' : St)
      (res : Response) (p : string) :
  update_user lib w req st = (Ok res, st') ->
  js_prop (req_body req) "password" = JStr p ->
  string_or_absent (js_prop (req_body req) "username") ->
  string_or_absent (js_prop (req_body req) "email") ->
  status res = 200 ->
  Forall2 (fun r r' => id r = SText (params_id req) ->
                       password_hash r' = SText (bcrypt_digest lib p SALT_ROUNDS (w_salt w)))
          (st_db st) (st_db st').
Proof.
  intros H P U E. revert H.
  assert (B : has_body (req_body req)).
  { apply (js_prop_has_body _ _ _ P). discriminate. }
  unfold_handler. rewrite !(member_has_body _ _ B), P.
  destruct U as [U|[u U]], E as [E|[e E]]; rewrite U, E; cbn [defined];
    repeat step; finish; cbn [st_db status]; intro S; try discriminate S;
    match goal with
    | X : run_stmt _ _ _ _ _ = Ok _ |- _ =>
        first [ apply (update_statement_strings lib w _ [_]) in X
              | apply (update_statement_strings lib w _ [_; _]) in X
              | apply (update_statement_strings lib w _ [_; _; _]) in X ]
    end;
    subst; apply Forall2_map_right; intros r _ I;
    rewrite matches_id_text, I, sql_eqb_refl; reflexivity.
Qed.

Lemma update_user_empty (lib : Lib) (w : World) (req : Req) (st : St) :
  (exists r, In r (st_db st) /\ id r = SText (params_id req)) ->
  has_body (req_body req) ->
  js_prop (req_body req) "username" = JUndefined ->
  js_prop (req_body req) "password" = JUndefined ->
  js_prop (req_body req) "email" = JUndefined ->
  update_user lib w req st = (Ok nothing_to_update, st).
Proof.
  intros X B U P E. destruct (find_by_id_present lib _ _ X) as [r F].
  unfold_handler. unfold select_user_by_id.
  rewrite get_by_text, F, !(member_has_body _ _ B), U, P, E. reflexivity.
Qed.

(** C4, as stated, fails twice.  An array for a field is spread over the
    parameters of the UPDATE, so with [username: []], [password: "x"] and
    [email: ["u", "e"]] the update is answered 200 and [password_hash]
    holds the string ["u"] of the body, not the digest of the password.
    And a request without a body supplies none of the three fields, yet it
    is answered 500, not 400. *)
Lemma update_stores_unhashed_string :
  update_user Sample.lib (Sample.world "x")
    (Sample.request None "u1"
       (JObj [("username", JArr []); ("password", JStr "x");
              ("email", JArr [JStr "u"; JStr "e"])]))
    (mkSt [Sample.alice] [])
  = (Ok (json 200 (JObj [("id", JStr "u1"); ("username", JStr "salt:x");
                         ("email", JStr "e"); ("is_admin", JNum 0);
                         ("created_at", JStr "2025-01-01 00:00:00")])),
     mkSt [mkRow (SText "u1") (SText "salt:x") (SText "u") (SText "e") (SInt 0)
                 (SText "2025-01-01 00:00:00")]
          [EvHash (JStr "x") SALT_ROUNDS]) /\
  SText "u" <> SText (bcrypt_digest Sample.lib "x" SALT_ROUNDS
                                    (w_salt (Sample.world "x"))) /\
  update_user Sample.lib (Sample.world "x") (Sample.request None "u1" JUndefined)
              (mkSt [Sample.alice] [])
  = (Ok (json 500 (error_body "Erro ao atualizar usuário")), mkSt [Sample.alice] []) /\
  js_prop JUndefined "username" = JUndefined /\
  js_prop JUndefined "password" = JUndefined /\
  js_prop JUndefined "email" = JUndefined.
Proof.
  split; [reflexivity|]. split; [discriminate|]. repeat split; reflexivity.
Qed.

(** C4, amended. An update of the user [:id] leaves every other row as it
    is and keeps [id], [is_admin] and [created_at] of every row; a field
    the body does not supply is kept (a body with only [username] keeps
    [email] and [password_hash]); a supplied password, the other fields
    being strings or absent, is stored as its bcrypt digest; and for an
    existing user a request with a body that has none of the three fields
    is answered 400 with the store as it was. *)
Theorem update_changes_only_supplied_fields
        (lib : Lib) (w : World) (req : Req) (st st' : St) (res : Response) :
  update_user lib w req st = (Ok res, st') ->
  Forall2 (update_frame (req_body req) (params_id req)) (st_db st) (st_db st') /\
  (forall p,
      js_prop (req_body req) "password" = JStr p ->
      string_or_absent (js_prop (req_body req) "username") ->
      string_or_absent (js_prop (req_body req) "email") ->
      status res = 200 ->
      Forall2 (fun r r' =>
                 id r = SText (params_id req) ->
                 password_hash r' = SText (bcrypt_digest lib p SALT_ROUNDS (w_salt w)))
              (st_db st) (st_db st')) /\
  ((exists r, In r (st_db st) /\ id r = SText (params_id req)) ->
   has_body (req_body req) ->
   js_prop (req_body req) "username" = JUndefined ->
   js_prop (req_body req) "password" = JUndefined ->
   js_prop (req_body req) "email" = JUndefined ->
   res = nothing_to_update /\ status res = 400 /\ st' = st).
Proof.
  intro H. split; [|split].
  - exact (update_user_frame lib w req st st' res H).
  - intros p P U E S. exact (update_user_hashes lib w req st st' res p H P U E S).
  - intros X B U P E. rewrite (update_user_empty lib w req st X B U P E) in H.
    inversion H. repeat split; reflexivity.
Qed.

Lemma update_changes_only_supplied_fields_witness :
  Forall2 (update_frame (JObj [("username", JStr "al2")]) "u1")
          [Sample.root; Sample.alice]
          [Sample.root; set_col c_username (SText "al2") Sample.alice].
Proof.
  apply (proj1 (update_changes_only_supplied_fields Sample.lib (Sample.world "x")
                  (Sample.request None "u1" (JObj [("username", JStr "al2")]))
                  (mkSt [Sample.root; Sample.alice] [])
                  (mkSt [Sample.root; set_col c_username (SText "al2") Sample.alice] [])
                  (json 200 (JObj (omit "password_hash"
                                        (project all_columns
                                                 (set_col c_username (SText "al2")
                                                          Sample.alice)))))
                  eq_refl)).
Defined.

(** ** C5: failed logins *)

(** C5. Of two login requests that each supply an email and a password,
    one whose email is that of no stored user and one whose email is that
    of a stored user whose hash the password does not verify against, both
    are answered with the same response: 401 and the one generic
    invalid-credentials body. *)
Theorem login_failures_indistinguishable
        (lib : Lib) (w1 w2 : World) (st1 st2 : St) (req1 req2 : Req)
        (m1 m2 p2 : string) (p1 : JsVal) :
  login_attempt (req_body req1) m1 p1 ->
  (forall r, In r (st_db st1) -> email r <> SText m1) ->
  login_attempt (req_body req2) m2 (JStr p2) ->
  (exists r, In r (st_db st2) /\ email r = SText m2) ->
  (forall r, In r (st_db st2) -> email r = SText m2 ->
             exists h, password_hash r = SText h /\ bcrypt_verify lib p2 h = false) ->
  fst (login lib w1 req1 st1) = fst (login lib w2 req2 st2) /\
  fst (login lib w1 req1 st1) = Ok invalid_credentials /\
  status invalid_credentials = 401 /\
  body invalid_credentials = error_body "Credenciais inválidas".
Proof.
  intros [E1 [N1 [P1 T1]]] A1 [E2 [N2 [P2 T2]]] X2 V2.
  assert (B1 : has_body (req_body req1)).
  { apply (js_prop_has_body _ _ _ E1). discriminate. }
  assert (B2 : has_body (req_body req2)).
  { apply (js_prop_has_body _ _ _ E2). discriminate. }
  assert (L1 : fst (login lib w1 req1 st1) = Ok invalid_credentials).
  { unfold login, try_catch, get, query, bind, lift, ret, select_user_by_email.
    rewrite !(member_has_body _ _ B1), E1, P1, T1, (truthy_string _ N1). simpl.
    rewrite (find_by_email_absent lib m1 _ A1). reflexivity. }
  assert (L2 : fst (login lib w2 req2 st2) = Ok invalid_credentials).
  { destruct (find_by_email_present lib m2 _ X2) as [r [F [I E]]].
    destruct (V2 r I E) as [h [H V]].
    unfold login, try_catch, get, query, bind, lift, ret, select_user_by_email,
      bcrypt_compare, emit.
    rewrite !(member_has_body _ _ B2), E2, P2, T2, (truthy_string _ N2). simpl.
    rewrite F. simpl.
    unfold field. simpl. rewrite H. simpl. rewrite V. reflexivity. }
  rewrite L1, L2. repeat split; reflexivity.
Qed.

Lemma login_failures_indistinguishable_witness :
  fst (login Sample.lib (Sample.world "x")
         (Sample.request None "" (Sample.credentials "" "whatever1" "nobody@x.com"))
         (mkSt [Sample.alice] []))
  = fst (login Sample.lib (Sample.world "y")
           (Sample.request None "" (Sample.credentials "" "wrongpass" "a@x.com"))
           (mkSt [Sample.alice] [])) /\
  fst (login Sample.lib (Sample.world "x")
         (Sample.request None "" (Sample.credentials "" "whatever1" "nobody@x.com"))
         (mkSt [Sample.alice] []))
  = Ok invalid_credentials /\
  status invalid_credentials = 401 /\
  body invalid_credentials = error_body "Credenciais inválidas".
Proof.
  apply (login_failures_indistinguishable Sample.lib (Sample.world "x") (Sample.world "y")
           (mkSt [Sample.alice] []) (mkSt [Sample.alice] [])
           (Sample.request None "" (Sample.credentials "" "whatever1" "nobody@x.com"))
           (Sample.request None "" (Sample.credentials "" "wrongpass" "a@x.com"))
           "nobody@x.com" "a@x.com" "wrongpass" (JStr "whatever1")).
  - repeat split; discriminate.
  - intros r [H|[]]. subst r. discriminate.
  - repeat split; discriminate.
  - exists Sample.alice. split; [left|]; reflexivity.
  - intros r [H|[]] _. subst r. exists "salt:password1". split; reflexivity.
Defined.

(** ** C6: registrations that fail validation *)

Lemma invalid_registration_cases (lib : Lib) (payload : JsVal) :
  invalid_registration payload ->
  negb (truthy (js_prop payload "username"))
  || negb (truthy (js_prop payload "password"))
  || negb (truthy (js_prop payload "email")) = true \/
  less_than lib (js_prop (js_prop payload "password") "length") 8 = Ok true.
Proof.
  intros [H|[H|[H|[s [H L]]]]]; rewrite H; simpl.
  - left. reflexivity.
  - left. apply orb_true_iff. left. apply orb_true_r.
  - left. apply orb_true_r.
  - right. f_equal. apply Z.ltb_lt. lia.
Qed.

(** C6, as stated, fails: a request without a body has none of the three
    fields, yet the register and the admin-create handlers answer it 500,
    not 400; the destructuring of [req.body] throws before the validation.
    The store is left as it was. *)
Lemma bodyless_registration_answered_500 :
  invalid_registration JUndefined /\
  register Sample.lib (Sample.world "u2") (Sample.request None "" JUndefined)
           (mkSt [Sample.alice] [])
  = (Ok (json 500 (error_body "Erro ao registrar usuário")), mkSt [Sample.alice] []) /\
  create_user Sample.lib (Sample.world "u2") (Sample.request None "" JUndefined)
              (mkSt [Sample.alice] [])
  = (Ok (json 500 (error_body "Erro ao criar usuário")), mkSt [Sample.alice] []).
Proof.
  split; [left; reflexivity|]. split; reflexivity.
Qed.

(** C6, amended. A register request, or an admin-create request, that has
    a body in which [username], [password] or [email] is missing, or whose
    password is shorter than eight characters, is answered 400 and leaves
    the store (and the libraries) untouched. *)
Theorem invalid_registration_rejected (lib : Lib) (w : World) (st : St) (req : Req) :
  has_body (req_body req) ->
  invalid_registration (req_body req) ->
  (exists res, register lib w req st = (Ok res, st) /\ status res = 400) /\
  (exists res, create_user lib w req st = (Ok res, st) /\ status res = 400).
Proof.
  intros B I.
  pose proof (invalid_registration_cases lib _ I) as C.
  unfold register, create_user, try_catch, bind, lift, ret.
  rewrite !(member_has_body _ _ B).
  destruct C as [C|C].
  - rewrite C. split; exists missing_fields; split; reflexivity.
  - rewrite C.
    destruct (negb (truthy (js_prop (req_body req) "username"))
              || negb (truthy (js_prop (req_body req) "password"))
              || negb (truthy (js_prop (req_body req) "email"))).
    + split; exists missing_fields; split; reflexivity.
    + split; exists weak_password; split; reflexivity.
Qed.

Lemma invalid_registration_rejected_witness :
  (exists res, register Sample.lib (Sample.world "u2")
                 (Sample.request None "" (Sample.credentials "bob" "short" "b@x.com"))
                 (mkSt [Sample.alice] []) = (Ok res, mkSt [Sample.alice] [])
               /\ status res = 400) /\
  (exists res, create_user Sample.lib (Sample.world "u2")
                 (Sample.request None "" (Sample.credentials "bob" "short" "b@x.com"))
                 (mkSt [Sample.alice] []) = (Ok res, mkSt [Sample.alice] [])
               /\ status res = 400).
Proof.
  apply (invalid_registration_rejected Sample.lib (Sample.world "u2")
           (mkSt [Sample.alice] [])
           (Sample.request None "" (Sample.credentials "bob" "short" "b@x.com"))).
  - split; discriminate.
  - right. right. right. exists "short". split; [reflexivity | simpl; lia].
Defined.

(** ** C7: one live row per email *)

Lemma registered_row_not_null (lib : Lib) (w : World) (n p m : string) :
  violates_not_null (registered_row lib w n p m) = false.
Proof. reflexivity. Qed.

(** A row whose email is already stored is refused with a constraint
    error, whichever index reports it first. *)
Lemma duplicate_email_refused (lib : Lib) (w : World) (n p m : string) (db : Db) :
  (exists r, In r db /\ email r = SText m) ->
  exists e, check_constraints (db ++ [registered_row lib w n p m])
                              [registered_row lib w n p m] = Throw e /\
            is_constraint_error e = true.
Proof.
  intros [r0 [I E]]. rewrite check_constraints_single, registered_row_not_null.
  destruct (violates_unique c_id _ _).
  - eexists. split; reflexivity.
  - assert (V : violates_unique c_email (db ++ [registered_row lib w n p m])
                                (registered_row lib w n p m) = true).
    { unfold violates_unique. simpl. apply Nat.ltb_lt.
      rewrite occurrences_app. simpl. rewrite string_eqb_refl.
      pose proof (occurrences_present c_email (SText m) db r0 I E). lia. }
    rewrite V. eexists. split; reflexivity.
Qed.

(** A row with a fresh id and an email no stored row has is accepted. *)
Lemma fresh_row_accepted (lib : Lib) (w : World) (n p m : string) (db : Db) :
  (forall r, In r db -> id r <> SText (w_uuid w)) ->
  (forall r, In r db -> email r <> SText m) ->
  check_constraints (db ++ [registered_row lib w n p m])
                    [registered_row lib w n p m] = Ok tt.
Proof.
  intros I E. rewrite check_constraints_single, registered_row_not_null.
  assert (V1 : violates_unique c_id (db ++ [registered_row lib w n p m])
                               (registered_row lib w n p m) = false).
  { unfold violates_unique. simpl. apply Nat.ltb_ge.
    rewrite occurrences_app. simpl. rewrite string_eqb_refl.
    rewrite (occurrences_absent c_id (SText (w_uuid w)) db I). lia. }
  assert (V2 : violates_unique c_email (db ++ [registered_row lib w n p m])
                               (registered_row lib w n p m) = false).
  { unfold violates_unique. simpl. apply Nat.ltb_ge.
    rewrite occurrences_app. simpl. rewrite string_eqb_refl.
    rewrite (occurrences_absent c_email (SText m) db E). lia. }
  rewrite V1, V2. reflexivity.
Qed.

Lemma run_insert_created (lib : Lib) (w : World) (n p m : string) (db : Db) :
  run_stmt lib w insert_created
           [JStr (w_uuid w); JStr n; JStr (bcrypt_digest lib p SALT_ROUNDS (w_salt w));
            JStr m] db
  = rbind (check_constraints (db ++ [registered_row lib w n p m])
                             [registered_row lib w n p m])
          (fun _ => Ok (db ++ [registered_row lib w n p m])%list).
Proof. reflexivity. Qed.

Lemma valid_registration_passes (lib : Lib) (payload : JsVal) (n p m : string) :
  valid_registration payload n p m ->
  has_body payload /\
  truthy (JStr n) = true /\ truthy (JStr p) = true /\ truthy (JStr m) = true /\
  less_than lib (js_prop (JStr p) "length") 8 = Ok false.
Proof.
  intros [U [Nn [P [L [E Nm]]]]].
  split; [apply (js_prop_has_body _ _ _ U); discriminate|].
  split; [apply truthy_string; exact Nn|].
  split; [apply truthy_string; intro Z; subst p; simpl in L; lia|].
  split; [apply truthy_string; exact Nm|].
  simpl. f_equal. apply Z.ltb_ge. lia.
Qed.

(** A registration that passes validation hashes the password and then
    fails to prepare its INSERT, which names [is_admin]. *)
Lemma register_valid_run (lib : Lib) (w : World) (req : Req) (st : St) (n p m : string) :
  valid_registration (req_body req) n p m ->
  register lib w req st
  = (Ok (json 500 (error_body "Erro ao registrar usuário")),
     mkSt (st_db st) (st_log st ++ [EvHash (JStr p) SALT_ROUNDS])).
Proof.
  intro V. pose proof (valid_registration_passes lib _ _ _ _ V) as [B [Tn [Tp [Tm L]]]].
  destruct V as [U [_ [P [_ [E _]]]]].
  unfold_handler.
  rewrite !(member_has_body _ _ B), U, P, E, Tn, Tp, Tm, L. reflexivity.
Qed.

Lemma create_valid_run (lib : Lib) (w : World) (req : Req) (st : St) (n p m : string) :
  valid_registration (req_body req) n p m ->
  create_user lib w req st =
  let st1 := mkSt (st_db st) (st_log st ++ [EvHash (JStr p) SALT_ROUNDS]) in
  let r := registered_row lib w n p m in
  let caught (e : JsError) :=
    if is_constraint_error e then email_in_use
    else json 500 (error_body "Erro ao criar usuário") in
  match check_constraints (st_db st ++ [r]) [r] with
  | Throw e => (Ok (caught e), st1)
  | Ok _ =>
      let st2 := mkSt (st_db st ++ [r]) (st_log st1) in
      match find (matches lib c_id (SText (w_uuid w))) (st_db st ++ [r]) with
      | Some r' => (Ok (json 201 (JObj (omit "password_hash" (project all_columns r')))), st2)
      | None => (Ok (caught TypeError), st2)
      end
  end.
Proof.
  intro V. pose proof (valid_registration_passes lib _ _ _ _ V) as [B [Tn [Tp [Tm L]]]].
  destruct V as [U [_ [P [_ [E _]]]]].
  unfold_handler. unfold select_user_by_id.
  rewrite !(member_has_body _ _ B), U, P, E, Tn, Tp, Tm, L.
  cbn [negb orb st_db st_log]. rewrite run_insert_created.
  destruct (check_constraints _ _) as [[]|e]; cbn [rbind st_db st_log].
  - rewrite get_by_text.
    destruct (find _ _) as [r'|]; reflexivity.
  - destruct (is_constraint_error e); reflexivity.
Qed.

Lemma delete_user_run (lib : Lib) (w : World) (req : Req) (st : St) :
  (exists r, In r (st_db st) /\ id r = SText (params_id req)) ->
  delete_user lib w req st
  = (Ok (send 204),
     mkSt (filter (fun r => negb (matches lib c_id (SText (params_id req)) r)) (st_db st))
          (st_log st)).
Proof.
  intro X. destruct (find_by_id_present lib _ _ X) as [r F].
  unfold_handler. unfold select_user_by_id, delete_user_by_id.
  rewrite get_by_text, F. reflexivity.
Qed.

(** Once the one row with an email is deleted, no stored row has it. *)
Lemma email_free_after_delete (lib : Lib) (db : Db) (u : Row) (uid m : string) :
  NoDup (map email db) -> In u db -> id u = SText uid -> email u = SText m ->
  forall r, In r (filter (fun r => negb (matches lib c_id (SText uid) r)) db) ->
            email r <> SText m.
Proof.
  intros N I U E r Hr Er. apply filter_In in Hr. destruct Hr as [Ir Mr].
  assert (r = u). { apply (NoDup_map_injective email db); congruence. }
  subst r. rewrite matches_id_text, U, sql_eqb_refl in Mr. discriminate.
Qed.

(** C7, on the code: a registration that passes validation is answered
    500 whatever the emails in the store, after its password was hashed,
    and writes nothing: its INSERT names [is_admin], which the table
    [initializeDatabase] creates does not have, and the error of
    [db.prepare] is not a constraint error.  So a second registration with
    the email of a stored user is not answered 400, and a registration
    with the email of a deleted user is not answered 201. *)
Theorem registration_never_stored
        (lib : Lib) (w0 w : World) (st : St) (del req : Req) (n p m : string) :
  valid_registration (req_body req) n p m ->
  let refused (s : St) :=
    (Ok (json 500 (error_body "Erro ao registrar usuário")),
     mkSt (st_db s) (st_log s ++ [EvHash (JStr p) SALT_ROUNDS])) in
  serve lib w PostAuthRegister req st = refused st /\
  serve lib w PostAuthRegister req (snd (delete_user lib w0 del st))
  = refused (snd (delete_user lib w0 del st)) /\
  json 500 (error_body "Erro ao registrar usuário") <> email_in_use /\
  status (json 500 (error_body "Erro ao registrar usuário")) <> 201.
Proof.
  intros V refused. unfold refused. cbn [serve].
  rewrite !(register_valid_run lib w req _ n p m V).
  repeat split; discriminate.
Qed.

Lemma registration_never_stored_witness :
  serve Sample.lib (Sample.world "u2") PostAuthRegister
        (Sample.request None "" (Sample.credentials "bob" "password2" "a@x.com"))
        (mkSt [Sample.root; Sample.alice] [])
  = (Ok (json 500 (error_body "Erro ao registrar usuário")),
     mkSt [Sample.root; Sample.alice] [EvHash (JStr "password2") 10]) /\
  serve Sample.lib (Sample.world "u2") PostAuthRegister
        (Sample.request None "" (Sample.credentials "bob" "password2" "a@x.com"))
        (mkSt [Sample.root] [])
  = (Ok (json 500 (error_body "Erro ao registrar usuário")),
     mkSt [Sample.root] [EvHash (JStr "password2") 10]) /\
  json 500 (error_body "Erro ao registrar usuário") <> email_in_use /\
  status (json 500 (error_body "Erro ao registrar usuário")) <> 201.
Proof.
  apply (registration_never_stored Sample.lib (Sample.world "x") (Sample.world "u2")
           (mkSt [Sample.root; Sample.alice] [])
           (Sample.request None "u1" JUndefined)
           (Sample.request None "" (Sample.credentials "bob" "password2" "a@x.com"))
           "bob" "password2" "a@x.com").
  repeat split; try discriminate. simpl. lia.
Defined.

(** ** C8: the Authorization header *)

(** C8, as stated, fails: the header [Basic abc] is not of the form
    [Bearer <token>], yet the gate does not answer it as a missing token
    without verification; it hands [abc] to the verifier. *)
Lemma other_scheme_is_verified :
  ~ bearer_form "Basic abc" /\
  ~ rejected_as_missing Sample.lib (Sample.world "x")
      (Sample.request (Some "Basic abc") "" JUndefined) Sample.empty /\
  authenticateToken Sample.lib (Sample.world "x")
      (Sample.request (Some "Basic abc") "" JUndefined) Sample.empty
  = (Ok (Respond (json 403 (error_body "Token inválido"))), mkSt [] [EvVerify "abc"]).
Proof.
  split; [|split].
  - intros [t [_ [_ H]]]. simpl in H. inversion H.
  - unfold rejected_as_missing. vm_compute. intro H. inversion H.
  - reflexivity.
Qed.

(** C8, amended. The gate answers with the missing-token 401, calling
    nothing, exactly when the Authorization header is absent or has no
    non-empty second space-separated word; the first word is not compared
    with [Bearer]: whatever the scheme word, a header [<scheme> <token>]
    has its token handed to the verifier. *)
Theorem missing_token_cases (lib : Lib) (w : World) (req : Req) (st : St) :
  (rejected_as_missing lib w req st <-> tokenless (authorization req)) /\
  (forall scheme t,
      spaceless scheme = true -> spaceless t = true -> t <> "" ->
      authorization req = Some (scheme ++ " " ++ t)%string ->
      exists step,
        authenticateToken lib w req st
        = (Ok step, mkSt (st_db st) (st_log st ++ [EvVerify t])%list)).
Proof.
  split.
  - rewrite <- no_token_tokenless. unfold rejected_as_missing. split.
    + intro R.
      destruct (no_token (bearer_token (authorization req))) eqn:T; [reflexivity|].
      destruct (bearer_token (authorization req)) as [t|] eqn:B; [|discriminate T].
      simpl in T. apply String.eqb_neq in T.
      destruct (gate_with_token_log lib w req st t B T) as [step G].
      rewrite G in R. inversion R as [[H1 H2]]. exfalso.
      apply (log_grows (st_log st) (EvVerify t)).
      rewrite <- H2 at 2. reflexivity.
    + apply gate_without_token.
  - intros scheme t S T N A.
    apply gate_with_token_log; [|exact N].
    rewrite A. apply bearer_token_of_header; assumption.
Qed.

Lemma missing_token_cases_witness :
  exists step,
    authenticateToken Sample.lib (Sample.world "x")
      (Sample.request (Some "Basic abc") "" JUndefined) Sample.empty
    = (Ok step, mkSt [] [EvVerify "abc"]).
Proof.
  apply (proj2 (missing_token_cases Sample.lib (Sample.world "x")
                  (Sample.request (Some "Basic abc") "" JUndefined) Sample.empty)
               "Basic" "abc").
  - reflexivity.
  - reflexivity.
  - discriminate.
  - reflexivity.
Defined.

(** ** C9: the users relation *)

(** C9, on the code: the table [initializeDatabase] creates has the columns
    id, username, password_hash, email and created_at and no [is_admin];
    the INSERT of the register handler and the SELECT of the gate name
    [is_admin], so against that table neither can be prepared, and the
    error is not one the register handler translates: it answers 500. *)
Theorem users_table_lacks_is_admin :
  map decl_name initializeDatabase
  = ["id"; "username"; "password_hash"; "email"; "created_at"] /\
  declares initializeDatabase "is_admin" = false /\
  In c_is_admin (statement_columns insert_registered) /\
  prepare initializeDatabase insert_registered = Throw (SqliteError "SQLITE_ERROR") /\
  prepare initializeDatabase select_identity_by_id = Throw (SqliteError "SQLITE_ERROR") /\
  is_constraint_error (SqliteError "SQLITE_ERROR") = false /\
  prepare initializeDatabase insert_created = Ok insert_created.
Proof.
  repeat split; try reflexivity. simpl. tauto.
Qed.

(** The registration handler cannot prepare its INSERT and so writes no
    row at all. *)
Lemma register_leaves_store (lib : Lib) (w : World) (req : Req) (st st' : St)
      (res : Response) :
  register lib w req st = (Ok res, st') -> st_db st' = st_db st.
Proof.
  unfold_handler. repeat step; finish; reflexivity.
Qed.



(** ** C10: a password that is not a string *)

(** C10. A register or admin-create request whose password is a number
    (such as 1234) is not stopped by the length check: the number has no
    [length], [undefined < 8] is false, and the handler goes on to call
    [bcrypt.hash] on it instead of answering with the weak-password
    error. *)
Theorem numeric_password_reaches_hashing
        (lib : Lib) (w : World) (st : St) (req : Req) (z : Z) :
  js_prop (req_body req) "password" = JNum z ->
  z <> 0 ->
  truthy (js_prop (req_body req) "username") = true ->
  truthy (js_prop (req_body req) "email") = true ->
  js_prop (JNum z) "length" = JUndefined /\
  less_than lib JUndefined 8 = Ok false /\
  (exists res st', register lib w req st = (Ok res, st') /\
                   In (EvHash (JNum z) SALT_ROUNDS) (st_log st') /\
                   res <> weak_password /\ st_db st' = st_db st) /\
  (exists res st', create_user lib w req st = (Ok res, st') /\
                   In (EvHash (JNum z) SALT_ROUNDS) (st_log st') /\
                   res <> weak_password /\ st_db st' = st_db st).
Proof.
  intros P Z U E.
  assert (B : has_body (req_body req)).
  { apply (js_prop_has_body _ _ _ P). discriminate. }
  assert (T : truthy (JNum z) = true).
  { simpl. apply negb_true_iff. apply Z.eqb_neq. exact Z. }
  split; [reflexivity|]. split; [reflexivity|].
  unfold register, create_user, try_catch, bind, lift, ret.
  rewrite !(member_has_body _ _ B), P, U, E, T. simpl.
  split; eexists; eexists; (split; [reflexivity|]); simpl;
    (split; [apply in_or_app; right; left; reflexivity|]);
    (split; [discriminate | reflexivity]).
Qed.

Lemma numeric_password_reaches_hashing_witness :
  js_prop (JNum 1234) "length" = JUndefined /\
  less_than Sample.lib JUndefined 8 = Ok false /\
  (exists res st',
      register Sample.lib (Sample.world "u2")
        (Sample.request None ""
           (JObj [("username", JStr "bob"); ("password", JNum 1234); ("email", JStr "b@x.com")]))
        Sample.empty = (Ok res, st') /\
      In (EvHash (JNum 1234) SALT_ROUNDS) (st_log st') /\
      res <> weak_password /\ st_db st' = st_db Sample.empty) /\
  (exists res st',
      create_user Sample.lib (Sample.world "u2")
        (Sample.request None ""
           (JObj [("username", JStr "bob"); ("password", JNum 1234); ("email", JStr "b@x.com")]))
        Sample.empty = (Ok res, st') /\
      In (EvHash (JNum 1234) SALT_ROUNDS) (st_log st') /\
      res <> weak_password /\ st_db st' = st_db Sample.empty).
Proof.
  apply (numeric_password_reaches_hashing Sample.lib (Sample.world "u2") Sample.empty
           (Sample.request None ""
              (JObj [("username", JStr "bob"); ("password", JNum 1234); ("email", JStr "b@x.com")]))
           1234).
  - reflexivity.
  - lia.
  - reflexivity.
  - reflexivity.
Defined.

(** ** Every request is answered *)

Lemma handlers_respond (lib : Lib) (w : World) (route : Route) (req : Req) (st : St) :
  exists res st', handler_of lib w route req st = (Ok res, st').
Proof.
  destruct route; unfold handler_of; unfold_handler;
    match goal with
    | |- exists res st', ?run = _ =>
        destruct run as [[res|e] st'] eqn:R; [exists res, st'; reflexivity|]
    end;
    exfalso; revert R; repeat step; discriminate.
Qed.

(** No route throws: each one answers with a response. *)
Lemma serve_responds (lib : Lib) (w : World) (route : Route) (req : Req) (st : St) :
  exists res st', serve lib w route req st = (Ok res, st').
Proof.
  destruct (protected route) eqn:P.
  - destruct (serve_at_gate lib w route req st P) as [res [st1 [H _]]].
    exists res, st1. exact H.
  - destruct route; try discriminate P;
      [exact (handlers_respond lib w PostAuthRegister req st)
      |exact (handlers_respond lib w PostAuthLogin req st)].
Qed.

(** ** The invariant of the store: one row per email *)







(** * Further properties of the handlers *)

(** ** How a route reaches its handler *)

(** A request on a route behind the gate is answered by the gate, with
    401, 403 or 500 and nothing written; a request on one of the two open
    routes is answered by its handler. *)
Lemma serve_cases (lib : Lib) (w : World) (route : Route) (req : Req)
      (st st' : St) (res : Response) :
  serve lib w route req st = (Ok res, st') ->
  (protected route = true /\ st_db st' = st_db st /\
   authenticateToken lib w req st = (Ok (Respond res), st') /\
   (status res = 401 \/ status res = 403 \/ status res = 500)) \/
  (protected route = false /\ handler_of lib w route req st = (Ok res, st')).
Proof.
  intro H. destruct (protected route) eqn:P.
  - left. destruct (serve_at_gate lib w route req st P) as [res0 [st1 [H0 [G [D S]]]]].
    rewrite H0 in H. inversion H; subst. repeat split; assumption.
  - right. split; [reflexivity|]. destruct route; try discriminate P; exact H.
Qed.

(** ** The reading routes *)

Lemma read_handlers_leave_store (lib : Lib) (w : World) (route : Route) (req : Req)
      (st st' : St) (res : Response) :
  read_only route = true ->
  handler_of lib w route req st = (Ok res, st') ->
  st_db st' = st_db st.
Proof.
  intro R. destruct route; try discriminate R; unfold handler_of; unfold_handler;
    repeat step; finish; reflexivity.
Qed.

(** Login, the list and the lookup never write the store, whatever the
    request and whatever the answer. *)
Lemma reads_leave_store (lib : Lib) (w : World) (route : Route) (req : Req)
      (st st' : St) (res : Response) :
  read_only route = true ->
  serve lib w route req st = (Ok res, st') ->
  st_db st' = st_db st.
Proof.
  intros R H. destruct (serve_cases lib w route req st st' res H) as [[_ [D _]]|[_ Hh]];
    [exact D|].
  exact (read_handlers_leave_store lib w route req st st' res R Hh).
Qed.

Lemma reads_leave_store_witness :
  st_db (mkSt [Sample.root; Sample.alice]
              [EvCompare (JStr "password1") (JStr "salt:password1");
               EvSign (claims (JStr "u1") (JStr "alice") (JStr "a@x.com") false)])
  = st_db (mkSt [Sample.root; Sample.alice] []).
Proof.
  apply (reads_leave_store Sample.lib (Sample.world "x") PostAuthLogin
           (Sample.request None "" (JObj [("email", JStr "a@x.com");
                                          ("password", JStr "password1")]))
           (mkSt [Sample.root; Sample.alice] [])
           (mkSt [Sample.root; Sample.alice]
                 [EvCompare (JStr "password1") (JStr "salt:password1");
                  EvSign (claims (JStr "u1") (JStr "alice") (JStr "a@x.com") false)])
           (json 200 (JObj [("message", JStr "Login realizado com sucesso");
                            ("token", JStr "jwt.u1");
                            ("user", public_user (JStr "u1") (JStr "alice")
                                                 (JStr "a@x.com") false)]))).
  - reflexivity.
  - reflexivity.
Defined.

(** ** The gate *)

(** An error of the verifier that is neither an invalid nor an expired
    token (a token not yet valid, say) is answered 500. *)
Lemma gate_other_error (lib : Lib) (w : World) (req : Req) (st : St)
      (t : string) (e : JsError) :
  bearer_token (authorization req) = Some t -> t <> "" ->
  jwt_verify lib (w_clock w) t = Throw e ->
  e_name e <> "JsonWebTokenError" -> e_name e <> "TokenExpiredError" ->
  authenticateToken lib w req st
  = (Ok (Respond (json 500 (error_body "Erro ao verificar token"))),
     mkSt (st_db st) (st_log st ++ [EvVerify t])).
Proof.
  intros B N V N1 N2.
  rewrite (gate_with_token lib w req st t B N), V. cbn [rbind]. unfold gate_catch.
  rewrite (string_eqb_false _ _ N1), (string_eqb_false _ _ N2). reflexivity.
Qed.

Lemma gate_other_error_witness :
  authenticateToken Edge.lib (Sample.world "x")
    (Sample.request (Some "Bearer early") "u1" JUndefined)
    (mkSt [Sample.alice] [])
  = (Ok (Respond (json 500 (error_body "Erro ao verificar token"))),
     mkSt [Sample.alice] [EvVerify "early"]).
Proof.
  apply (gate_other_error Edge.lib (Sample.world "x")
           (Sample.request (Some "Bearer early") "u1" JUndefined)
           (mkSt [Sample.alice] []) "early" (mkError "NotBeforeError" None)).
  - reflexivity.
  - discriminate.
  - reflexivity.
  - discriminate.
  - discriminate.
Defined.

(** A token the verifier accepts is answered 500 on every route behind the
    gate, whoever its subject is: the gate's SELECT names [is_admin] and
    cannot be prepared on the table [initializeDatabase] creates, so the
    user is never looked up.  Nothing is written. *)
Lemma verified_token_answered_500 (lib : Lib) (w : World) (route : Route) (req : Req)
      (st : St) (t : string) (decoded : JsVal) :
  protected route = true ->
  bearer_token (authorization req) = Some t -> t <> "" ->
  jwt_verify lib (w_clock w) t = Ok decoded ->
  serve lib w route req st
  = (Ok (json 500 (error_body "Erro ao verificar token")),
     mkSt (st_db st) (st_log st ++ [EvVerify t])).
Proof.
  intros P B N V. apply (serve_rejected_at_gate lib w route req st _ _ P).
  rewrite (gate_with_token lib w req st t B N), V. reflexivity.
Qed.

Lemma verified_token_answered_500_witness :
  serve Sample.lib (Sample.world "x") GetUsers
        (Sample.request (Some "Bearer jwt.u0") "" JUndefined)
        (mkSt [Sample.root; Sample.alice] [])
  = (Ok (json 500 (error_body "Erro ao verificar token")),
     mkSt [Sample.root; Sample.alice] [EvVerify "jwt.u0"]).
Proof.
  apply (verified_token_answered_500 Sample.lib (Sample.world "x") GetUsers
           (Sample.request (Some "Bearer jwt.u0") "" JUndefined)
           (mkSt [Sample.root; Sample.alice] []) "jwt.u0" (JObj [("userId", JStr "u0")])).
  - reflexivity.
  - reflexivity.
  - discriminate.
  - reflexivity.
Defined.

(** ** Lookup, creation and deletion by id *)

(** An id no stored row has: the lookup, the update and the deletion answer
    404 and touch nothing; the update does not even hash the password. *)
Lemma unknown_id_not_found (lib : Lib) (w : World) (req : Req) (st : St) :
  (forall r, In r (st_db st) -> id r <> SText (params_id req)) ->
  get_user lib req st = (Ok user_not_found, st) /\
  update_user lib w req st = (Ok user_not_found, st) /\
  delete_user lib w req st = (Ok user_not_found, st).
Proof.
  intro A. unfold_handler. unfold select_user_by_id.
  rewrite !get_by_text, (find_by_id_absent lib _ _ A). repeat split; reflexivity.
Qed.

Lemma unknown_id_not_found_witness :
  get_user Sample.lib (Sample.request None "u9" (JObj [("password", JStr "password9")]))
           (mkSt [Sample.alice] [])
  = (Ok user_not_found, mkSt [Sample.alice] []) /\
  update_user Sample.lib (Sample.world "x")
              (Sample.request None "u9" (JObj [("password", JStr "password9")]))
              (mkSt [Sample.alice] [])
  = (Ok user_not_found, mkSt [Sample.alice] []) /\
  delete_user Sample.lib (Sample.world "x")
              (Sample.request None "u9" (JObj [("password", JStr "password9")]))
              (mkSt [Sample.alice] [])
  = (Ok user_not_found, mkSt [Sample.alice] []).
Proof.
  apply (unknown_id_not_found Sample.lib (Sample.world "x")
           (Sample.request None "u9" (JObj [("password", JStr "password9")]))
           (mkSt [Sample.alice] [])).
  intros r [H|[]]. subst r. discriminate.
Defined.




(** What an admin creation answers with is what the lookup of the new id
    answers with afterwards: the new user, under the generated id, without
    the hash. *)
Lemma create_then_get (lib : Lib) (w : World) (req : Req) (st st' : St) (res : Response) :
  create_user lib w req st = (Ok res, st') ->
  status res = 201 ->
  (exists o, body res = JObj o /\ field "id" o = JStr (w_uuid w) /\
             has_key "password_hash" o = false) /\
  forall req2, params_id req2 = w_uuid w ->
               get_user lib req2 st' = (Ok (json 200 (body res)), st').
Proof.
  unfold create_user at 1. unfold_handler.
  repeat step; finish; cbn [status]; intro S; try discriminate S.
  match goal with
  | X : option_map _ (find ?f ?d) = Some _ |- _ =>
      destruct (find f d) as [r|] eqn:F; [|discriminate X];
      simpl in X; inversion X; subst; clear X
  end.
  pose proof (find_some _ _ F) as [I Q].
  rewrite matches_id_text in Q. apply sql_eqb_eq in Q.
  split.
  - eexists. split; [reflexivity|]. split; [|apply has_key_omit].
    unfold field. simpl. rewrite Q. reflexivity.
  - intros req2 P. rewrite P. cbn [st_db]. rewrite F. reflexivity.
Qed.

Lemma create_then_get_witness :
  (exists o, body (json 201 (public_row (registered_row Sample.lib (Sample.world "u2")
                                                        "bob" "password2" "b@x.com")))
             = JObj o /\ field "id" o = JStr "u2" /\ has_key "password_hash" o = false) /\
  forall req2, params_id req2 = "u2" ->
    get_user Sample.lib req2
      (mkSt [Sample.alice; registered_row Sample.lib (Sample.world "u2")
                                          "bob" "password2" "b@x.com"]
            [EvHash (JStr "password2") 10])
    = (Ok (json 200 (public_row (registered_row Sample.lib (Sample.world "u2")
                                                "bob" "password2" "b@x.com"))),
       mkSt [Sample.alice; registered_row Sample.lib (Sample.world "u2")
                                          "bob" "password2" "b@x.com"]
            [EvHash (JStr "password2") 10]).
Proof.
  apply (create_then_get Sample.lib (Sample.world "u2")
           (Sample.request None "" (Sample.credentials "bob" "password2" "b@x.com"))
           (mkSt [Sample.alice] [])).
  - reflexivity.
  - reflexivity.
Defined.

(** ** Writes the constraints refuse *)

Lemma null_violates (r : Row) (c : Column) :
  not_null_column c = true -> col_value c r = SNull -> violates_not_null r = true.
Proof.
  intros N V. unfold violates_not_null. apply existsb_exists. exists c. split.
  - destruct c; simpl; tauto.
  - rewrite N, V. reflexivity.
Qed.

Lemma null_write_refused (lib : Lib) (w : World) (cols : list Column) (args : list JsVal)
      (pid : string) (db : Db) (r : Row) (c : Column) :
  In r db -> id r = SText pid -> not_null_column c = true ->
  match bind_parameters (S (List.length cols)) args with
  | Ok vs => last vs SNull = SText pid /\ col_value c (assign lib cols vs r) = SNull
  | Throw _ => False
  end ->
  run_stmt lib w (UpdateSet cols c_id) args db
  = Throw (SqliteError "SQLITE_CONSTRAINT_NOTNULL").
Proof.
  intros I E N. unfold run_stmt. cbn [parameter_count].
  destruct (bind_parameters (S (List.length cols)) args) as [vs|e]; [|intros []].
  intros [L V]. cbn [rbind]. cbv zeta. rewrite L. unfold check_constraints.
  replace (existsb violates_not_null _) with true; [reflexivity|].
  symmetry. apply existsb_exists. exists (assign lib cols vs r). split.
  - apply in_map. apply filter_In. split; [exact I|].
    rewrite matches_id_text, E. apply sql_eqb_refl.
  - exact (null_violates _ c N V).
Qed.

(** An update that sets the name or the email of a stored user to [null]
    is answered 400 "Email já está em uso", whatever the emails in the
    store, and writes nothing: the NOT NULL violation carries a
    SQLITE_CONSTRAINT code as well. *)
Lemma update_null_field_refused (lib : Lib) (w : World) (req : Req) (st : St) :
  (exists r, In r (st_db st) /\ id r = SText (params_id req)) ->
  js_prop (req_body req) "username" = JNull \/ js_prop (req_body req) "email" = JNull ->
  null_or_string_or_absent (js_prop (req_body req) "username") ->
  string_or_absent (js_prop (req_body req) "password") ->
  null_or_string_or_absent (js_prop (req_body req) "email") ->
  exists st', update_user lib w req st = (Ok email_in_use, st') /\ st_db st' = st_db st.
Proof.
  unfold null_or_string_or_absent, string_or_absent. intros X N U P E.
  assert (B : has_body (req_body req)).
  { destruct N as [N|N]; apply (js_prop_has_body _ _ _ N); discriminate. }
  destruct X as [r [I Q]].
  destruct (find_by_id_present lib _ _ (ex_intro _ r (conj I Q))) as [r0 F].
  assert (G : forall res st', update_user lib w req st = (res, st') ->
                              res = Ok email_in_use /\ st_db st' = st_db st).
  { intros res st'. unfold_handler. unfold select_user_by_id.
    rewrite get_by_text, F, !(member_has_body _ _ B).
    destruct U as [U|[U|[u U]]], P as [P|[p P]], E as [E|[E|[e E]]];
      rewrite U, P, E in *; cbn [defined option_map];
      try (destruct N; discriminate);
      repeat step; finish; cbn [st_db];
      try match goal with
          | Z : Nat.eqb _ 0 = true |- _ => discriminate Z
          end;
      match goal with
      | X : run_stmt lib w (UpdateSet ?cols c_id) ?args ?db = _ |- _ =>
          first [ rewrite (null_write_refused lib w cols args (params_id req) db r c_username
                             I Q eq_refl) in X by (simpl; split; reflexivity)
                | rewrite (null_write_refused lib w cols args (params_id req) db r c_email
                             I Q eq_refl) in X by (simpl; split; reflexivity) ];
          inversion X; subst
      end;
      try match goal with
          | Z : is_constraint_error _ = false |- _ => discriminate Z
          end;
      split; reflexivity. }
  destruct (update_user lib w req st) as [res st'] eqn:R.
  destruct (G res st' eq_refl) as [-> D]. exists st'. split; [reflexivity|exact D].
Qed.

Lemma update_null_field_refused_witness :
  exists st', update_user Sample.lib (Sample.world "x")
                (Sample.request None "u1" (JObj [("username", JNull)]))
                (mkSt [Sample.alice] [])
              = (Ok email_in_use, st') /\ st_db st' = [Sample.alice].
Proof.
  apply (update_null_field_refused Sample.lib (Sample.world "x")
           (Sample.request None "u1" (JObj [("username", JNull)]))
           (mkSt [Sample.alice] [])).
  - exists Sample.alice. split; [left; reflexivity|reflexivity].
  - left. reflexivity.
  - left. reflexivity.
  - left. reflexivity.
  - right. left. reflexivity.
Defined.

Lemma colliding_id_refused (lib : Lib) (w : World) (n p m : string) (db : Db) :
  (exists r, In r db /\ id r = SText (w_uuid w)) ->
  check_constraints (db ++ [registered_row lib w n p m]) [registered_row lib w n p m]
  = Throw (SqliteError "SQLITE_CONSTRAINT_PRIMARYKEY").
Proof.
  intros [r [I E]]. rewrite check_constraints_single, registered_row_not_null.
  replace (violates_unique c_id _ _) with true; [reflexivity|].
  symmetry. unfold violates_unique. rewrite occurrences_app.
  pose proof (occurrences_present c_id (SText (w_uuid w)) db r I E) as O.
  cbn [col_value registered_row id unique_column is_null negb andb].
  rewrite sql_eqb_refl.
  replace (unique_column c_id) with true by reflexivity. cbn [andb].
  apply Nat.ltb_lt. lia.
Qed.

(** A generated id that a stored row already has: a well-formed admin
    creation is answered 400 "Email já está em uso" whether or not the
    email is taken, and stores nothing. *)
Lemma id_collision_refused (lib : Lib) (w : World) (req : Req) (st : St) (n p m : string) :
  valid_registration (req_body req) n p m ->
  (exists r, In r (st_db st) /\ id r = SText (w_uuid w)) ->
  create_user lib w req st
  = (Ok email_in_use, mkSt (st_db st) (st_log st ++ [EvHash (JStr p) SALT_ROUNDS])).
Proof.
  intros V X. rewrite (create_valid_run lib w req st n p m V). cbv zeta.
  rewrite (colliding_id_refused lib w n p m _ X). reflexivity.
Qed.

Lemma id_collision_refused_witness :
  create_user Sample.lib (Sample.world "u1")
              (Sample.request None "" (Sample.credentials "bob" "password2" "b@x.com"))
              (mkSt [Sample.alice] [])
  = (Ok email_in_use, mkSt [Sample.alice] [EvHash (JStr "password2") SALT_ROUNDS]).
Proof.
  apply (id_collision_refused Sample.lib (Sample.world "u1")
           (Sample.request None "" (Sample.credentials "bob" "password2" "b@x.com"))
           (mkSt [Sample.alice] []) "bob" "password2" "b@x.com").
  - repeat split; try discriminate. simpl. lia.
  - exists Sample.alice. split; [left; reflexivity|reflexivity].
Defined.

(** The handler of POST /users keeps one live row per email: a well-formed
    creation with the email of a stored user is answered 400 "Email já está
    em uso" and stores nothing, and once that user is deleted the same
    creation, under a fresh id, is answered 201 and its row is stored. *)
Lemma create_duplicate_email_and_reuse (lib : Lib) (w0 w : World) (st : St)
      (del req : Req) (n p m : string) (u : Row) :
  valid_registration (req_body req) n p m ->
  unique_emails (st_db st) ->
  In u (st_db st) -> id u = SText (params_id del) -> email u = SText m ->
  (forall r, In r (st_db st) -> id r <> SText (w_uuid w)) ->
  (exists st', create_user lib w req st = (Ok email_in_use, st') /\ st_db st' = st_db st) /\
  exists st1,
    delete_user lib w0 del st = (Ok (send 204), st1) /\
    exists res st2,
      create_user lib w req st1 = (Ok res, st2) /\ status res = 201 /\
      st_db st2 = (st_db st1 ++ [registered_row lib w n p m])%list.
Proof.
  intros V N I U E F. split.
  - destruct (duplicate_email_refused lib w n p m (st_db st) (ex_intro _ u (conj I E)))
      as [e [C K]].
    rewrite (create_valid_run lib w req st n p m V). cbv zeta.
    rewrite C, K. eexists. split; reflexivity.
  - eexists. split.
    { apply delete_user_run. exists u. split; assumption. }
    set (db1 := filter (fun r => negb (matches lib c_id (SText (params_id del)) r)) (st_db st)).
    assert (F1 : forall r, In r db1 -> id r <> SText (w_uuid w)).
    { intros r Hr. apply filter_In in Hr. apply F. exact (proj1 Hr). }
    assert (E1 : forall r, In r db1 -> email r <> SText m).
    { exact (email_free_after_delete lib (st_db st) u _ m N I U E). }
    pose proof (fresh_row_accepted lib w n p m db1 F1 E1) as C.
    rewrite (create_valid_run lib w req _ n p m V). cbv zeta.
    cbn [st_db st_log]. fold db1. rewrite C.
    assert (X : exists r, find (matches lib c_id (SText (w_uuid w)))
                               (db1 ++ [registered_row lib w n p m]) = Some r).
    { apply find_by_id_present. exists (registered_row lib w n p m).
      split; [apply in_or_app; right; left; reflexivity | reflexivity]. }
    destruct X as [r' X]. rewrite X.
    eexists. eexists. split; [reflexivity|]. split; reflexivity.
Qed.

Lemma create_duplicate_email_and_reuse_witness :
  (exists st',
      create_user Sample.lib (Sample.world "u2")
        (Sample.request None "" (Sample.credentials "al" "password2" "a@x.com"))
        (mkSt [Sample.root; Sample.alice] []) = (Ok email_in_use, st') /\
      st_db st' = [Sample.root; Sample.alice]) /\
  exists st1,
    delete_user Sample.lib (Sample.world "x") (Sample.request None "u1" JUndefined)
      (mkSt [Sample.root; Sample.alice] []) = (Ok (send 204), st1) /\
    exists res st2,
      create_user Sample.lib (Sample.world "u2")
        (Sample.request None "" (Sample.credentials "al" "password2" "a@x.com")) st1
      = (Ok res, st2) /\
      status res = 201 /\
      st_db st2 = st_db st1 ++ [registered_row Sample.lib (Sample.world "u2")
                                               "al" "password2" "a@x.com"].
Proof.
  apply (create_duplicate_email_and_reuse Sample.lib (Sample.world "x") (Sample.world "u2")
           (mkSt [Sample.root; Sample.alice] [])
           (Sample.request None "u1" JUndefined)
           (Sample.request None "" (Sample.credentials "al" "password2" "a@x.com"))
           "al" "password2" "a@x.com" Sample.alice).
  - repeat split; try discriminate. simpl. lia.
  - repeat constructor; simpl; intuition discriminate.
  - right; left; reflexivity.
  - reflexivity.
  - reflexivity.
  - intros r [H|[H|[]]]; subst r; discriminate.
Defined.

(** ** Deletion and the list *)

(** A deletion answered 204 removes exactly the rows of that id and logs
    nothing; afterwards the lookup of the id and a second deletion answer
    404. *)
Lemma delete_then_gone (lib : Lib) (w : World) (req : Req) (st : St) :
  (exists r, In r (st_db st) /\ id r = SText (params_id req)) ->
  exists st',
    delete_user lib w req st = (Ok (send 204), st') /\
    (forall r, In r (st_db st') <-> In r (st_db st) /\ id r <> SText (params_id req)) /\
    st_log st' = st_log st /\
    forall w2 req2, params_id req2 = params_id req ->
                    get_user lib req2 st' = (Ok user_not_found, st') /\
                    delete_user lib w2 req2 st' = (Ok user_not_found, st').
Proof.
  intro X. rewrite (delete_user_run lib w req st X). eexists. split; [reflexivity|].
  assert (K : forall r,
             In r (filter (fun r => negb (matches lib c_id (SText (params_id req)) r))
                          (st_db st))
             <-> In r (st_db st) /\ id r <> SText (params_id req)).
  { intro r. rewrite filter_In, matches_id_text. split; intros [I N]; split; try exact I.
    - intro E. rewrite E, sql_eqb_refl in N. discriminate.
    - destruct (sql_eqb (id r) _) eqn:Q; [|reflexivity].
      apply sql_eqb_eq in Q. destruct (N Q). }
  cbn [st_db st_log]. split; [exact K|]. split; [reflexivity|].
  intros w2 req2 P. unfold_handler. unfold select_user_by_id. rewrite P. cbn [st_db].
  rewrite !get_by_text, find_by_id_absent; [split; reflexivity|].
  intros r I. apply K in I. exact (proj2 I).
Qed.

Lemma delete_then_gone_witness :
  exists st',
    delete_user Sample.lib (Sample.world "x") (Sample.request None "u1" JUndefined)
                (mkSt [Sample.root; Sample.alice] []) = (Ok (send 204), st') /\
    (forall r, In r (st_db st') <-> In r [Sample.root; Sample.alice] /\ id r <> SText "u1") /\
    st_log st' = [] /\
    forall w2 req2, params_id req2 = "u1" ->
                    get_user Sample.lib req2 st' = (Ok user_not_found, st') /\
                    delete_user Sample.lib w2 req2 st' = (Ok user_not_found, st').
Proof.
  apply (delete_then_gone Sample.lib (Sample.world "x")
           (Sample.request None "u1" JUndefined) (mkSt [Sample.root; Sample.alice] [])).
  exists Sample.alice. split; [right; left; reflexivity|reflexivity].
Defined.


(** ** Who can change what *)

(** As the routes are mounted, on the table [initializeDatabase] creates,
    no request changes the store: the routes behind the gate are answered
    by the gate, the registration cannot prepare its INSERT, and the login
    only reads. *)
Lemma routes_never_write (lib : Lib) (w : World) (route : Route) (req : Req) (st : St) :
  st_db (snd (serve lib w route req st)) = st_db st.
Proof.
  destruct (serve_responds lib w route req st) as [res [st' H]]. rewrite H. cbn [snd].
  destruct (serve_cases lib w route req st st' res H) as [[_ [D _]]|[P Hd]]; [exact D|].
  destruct route; try discriminate P; cbn [handler_of] in Hd.
  - exact (register_leaves_store lib w req st st' res Hd).
  - exact (read_handlers_leave_store lib w PostAuthLogin req st st' res eq_refl Hd).
Qed.








(** ** Login of a stored user *)




(** A login without an email or without a password (absent, [null], empty,
    [0] or [false]) is answered before anything is looked up, compared or
    signed: 400 when the request has a body, 500 when it has none. *)
Lemma login_missing_fields (lib : Lib) (w : World) (req : Req) (st : St) :
  truthy (js_prop (req_body req) "email") = false \/
  truthy (js_prop (req_body req) "password") = false ->
  (has_body (req_body req) ->
   login lib w req st
   = (Ok (json 400 (error_details "Campos obrigatórios faltando"
                                  "email e password são obrigatórios")), st)) /\
  (~ has_body (req_body req) ->
   login lib w req st = (Ok (json 500 (error_body "Erro ao fazer login")), st)).
Proof.
  intro H. split.
  - intro B. unfold_handler. rewrite !(member_has_body _ _ B).
    destruct H as [H|H]; rewrite H; cbn [negb orb]; [reflexivity|].
    rewrite orb_true_r. reflexivity.
  - intro B. unfold_handler.
    destruct (req_body req); try reflexivity; exfalso; apply B; split; discriminate.
Qed.

Lemma login_missing_fields_witness :
  (has_body (JObj [("email", JStr "a@x.com"); ("password", JStr "")]) ->
   login Sample.lib (Sample.world "x")
         (Sample.request None "" (JObj [("email", JStr "a@x.com"); ("password", JStr "")]))
         (mkSt [Sample.alice] [])
   = (Ok (json 400 (error_details "Campos obrigatórios faltando"
                                  "email e password são obrigatórios")),
      mkSt [Sample.alice] [])) /\
  (~ has_body (JObj [("email", JStr "a@x.com"); ("password", JStr "")]) ->
   login Sample.lib (Sample.world "x")
         (Sample.request None "" (JObj [("email", JStr "a@x.com"); ("password", JStr "")]))
         (mkSt [Sample.alice] [])
   = (Ok (json 500 (error_body "Erro ao fazer login")), mkSt [Sample.alice] [])).
Proof.
  apply (login_missing_fields Sample.lib (Sample.world "x")
           (Sample.request None "" (JObj [("email", JStr "a@x.com"); ("password", JStr "")]))
           (mkSt [Sample.alice] [])).
  right. reflexivity.
Defined.

(** ** The ids of the store *)








(** ** Updates *)

Lemma occurrences_map_present (v : SqlVal) (f : Row -> Row) (db : Db) (a : Row) :
  In a db -> email (f a) = v -> (1 <= occurrences c_email v (map f db))%nat.
Proof.
  intros I E. apply (occurrences_present c_email v (map f db) (f a)).
  - apply in_map. exact I.
  - exact E.
Qed.

Lemma occurrences_map_two (v : SqlVal) (f : Row -> Row) (db : Db) (a b : Row) :
  In a db -> In b db -> a <> b -> email (f a) = v -> email (f b) = v ->
  (2 <= occurrences c_email v (map f db))%nat.
Proof.
  intros Ia Ib N Ea Eb. induction db as [|x db IH]; [destruct Ia|].
  simpl map. rewrite occurrences_cons.
  destruct Ia as [->|Ia], Ib as [->|Ib].
  - destruct (N eq_refl).
  - rewrite Ea, sql_eqb_refl.
    pose proof (occurrences_map_present v f db b Ib Eb). lia.
  - rewrite Eb, sql_eqb_refl.
    pose proof (occurrences_map_present v f db a Ia Ea). lia.
  - pose proof (IH Ia Ib). lia.
Qed.

Lemma constraint_codes (db : Db) (written : list Row) (e : JsError) :
  check_constraints db written = Throw e -> is_constraint_error e = true.
Proof.
  unfold check_constraints.
  destruct (existsb violates_not_null written);
    [intro H; inversion H; reflexivity|].
  destruct (existsb (violates_unique c_id db) written);
    [intro H; inversion H; reflexivity|].
  destruct (existsb (violates_unique c_email db) written);
    [intro H; inversion H; reflexivity|discriminate].
Qed.

Lemma taken_email_refused (lib : Lib) (w : World) (cols : list Column) (ss : list string)
      (pid m : string) (db : Db) (r r2 : Row) :
  In r db -> id r = SText pid ->
  In r2 db -> id r2 <> SText pid -> email r2 = SText m ->
  email (assign lib cols (map SText ss ++ [SText pid]) r) = SText m ->
  List.length cols = List.length ss ->
  exists e, run_stmt lib w (UpdateSet cols c_id) (map JStr ss ++ [JStr pid]) db = Throw e /\
            is_constraint_error e = true.
Proof.
  intros I E I2 N2 E2 A L. unfold run_stmt, bind_parameters.
  replace (map JStr ss ++ [JStr pid])%list with (map JStr (ss ++ [pid]))
    by (rewrite map_app; reflexivity).
  rewrite bind_strings. cbn [rbind parameter_count].
  replace (Nat.eqb _ _) with true
    by (rewrite length_map, length_app, L; simpl; symmetry; apply Nat.eqb_eq; lia).
  cbn [rbind]. cbv beta zeta.
  replace (map SText (ss ++ [pid])) with (map SText ss ++ [SText pid])%list
    by (rewrite map_app; reflexivity).
  rewrite last_last.
  set (vs := (map SText ss ++ [SText pid])%list) in *.
  set (f := fun x => if matches lib c_id (SText pid) x then assign lib cols vs x else x).
  destruct (check_constraints _ _) as [[]|e] eqn:C.
  - exfalso.
    assert (W : In (assign lib cols vs r)
                   (map (assign lib cols vs) (filter (matches lib c_id (SText pid)) db))).
    { apply in_map. apply filter_In. split; [exact I|].
      rewrite matches_id_text, E. apply sql_eqb_refl. }
    pose proof (checked_row_unique _ _ _ C W) as K. rewrite A in K.
    assert (T : (2 <= occurrences c_email (SText m) (map f db))%nat).
    { apply (occurrences_map_two (SText m) f db r r2 I I2).
      - intro Z. subst r2. exact (N2 E).
      - unfold f. rewrite matches_id_text, E, sql_eqb_refl. exact A.
      - unfold f. rewrite matches_id_text.
        destruct (sql_eqb (id r2) (SText pid)) eqn:Q; [|exact E2].
        apply sql_eqb_eq in Q. destruct (N2 Q). }
    pose proof (Nat.le_trans _ _ _ T K) as Z. lia.
  - exists e. split; [reflexivity|]. exact (constraint_codes _ _ _ C).
Qed.

(** Changing a stored user's email to the email of another stored user is
    answered 400 "Email já está em uso" and leaves the store as it was. *)
Lemma update_taken_email_refused (lib : Lib) (w : World) (req : Req) (st : St)
      (r r2 : Row) (m : string) :
  In r (st_db st) -> id r = SText (params_id req) ->
  In r2 (st_db st) -> id r2 <> SText (params_id req) -> email r2 = SText m ->
  js_prop (req_body req) "email" = JStr m ->
  string_or_absent (js_prop (req_body req) "username") ->
  string_or_absent (js_prop (req_body req) "password") ->
  exists st', update_user lib w req st = (Ok email_in_use, st') /\ st_db st' = st_db st.
Proof.
  unfold string_or_absent. intros I Q I2 N2 E2 E U P.
  assert (B : has_body (req_body req)).
  { apply (js_prop_has_body _ _ _ E). discriminate. }
  destruct (find_by_id_present lib _ _ (ex_intro _ r (conj I Q))) as [r0 F].
  assert (G : forall res st', update_user lib w req st = (res, st') ->
                              res = Ok email_in_use /\ st_db st' = st_db st).
  { intros res st'. unfold_handler. unfold select_user_by_id.
    rewrite get_by_text, F, !(member_has_body _ _ B), E.
    destruct U as [U|[u U]], P as [P|[p P]]; rewrite U, P; cbn [defined option_map];
      repeat step; finish; cbn [st_db];
      try match goal with
          | Z : Nat.eqb _ 0 = true |- _ => discriminate Z
          end;
      match goal with
      | X : run_stmt lib w (UpdateSet ?cols c_id) ?args ?db = _ |- _ =>
          let ss := lazymatch args with
                    | [JStr ?a; _] => constr:([a])
                    | [JStr ?a; JStr ?b; _] => constr:([a; b])
                    | [JStr ?a; JStr ?b; JStr ?c; _] => constr:([a; b; c])
                    end in
          destruct (taken_email_refused lib w cols ss (params_id req) m db r r2
                      I Q I2 N2 E2 eq_refl eq_refl) as [e' [T C]];
          pose proof (eq_trans (eq_sym X) T) as Y; inversion Y; subst
      end;
      try match goal with
          | Z : is_constraint_error _ = false |- _ => rewrite C in Z; discriminate Z
          end;
      split; reflexivity. }
  destruct (update_user lib w req st) as [res st'] eqn:R.
  destruct (G res st' eq_refl) as [-> D]. exists st'. split; [reflexivity|exact D].
Qed.

Lemma update_taken_email_refused_witness :
  exists st', update_user Sample.lib (Sample.world "x")
                (Sample.request None "u1" (JObj [("email", JStr "root@x.com")]))
                (mkSt [Sample.root; Sample.alice] [])
              = (Ok email_in_use, st') /\ st_db st' = [Sample.root; Sample.alice].
Proof.
  apply (update_taken_email_refused Sample.lib (Sample.world "x")
           (Sample.request None "u1" (JObj [("email", JStr "root@x.com")]))
           (mkSt [Sample.root; Sample.alice] []) Sample.alice Sample.root "root@x.com").
  - right. left. reflexivity.
  - reflexivity.
  - left. reflexivity.
  - discriminate.
  - reflexivity.
  - reflexivity.
  - left. reflexivity.
  - left. reflexivity.
Defined.

(** What an update answers 200 with is what the lookup of that id answers
    with afterwards: the row as updated, without the hash. *)
Lemma update_then_get (lib : Lib) (w : World) (req : Req) (st st' : St) (res : Response) :
  update_user lib w req st = (Ok res, st') ->
  status res = 200 ->
  (exists o, body res = JObj o /\ field "id" o = JStr (params_id req) /\
             has_key "password_hash" o = false) /\
  forall req2, params_id req2 = params_id req ->
               get_user lib req2 st' = (Ok (json 200 (body res)), st').
Proof.
  unfold update_user at 1. unfold_handler.
  repeat step; finish; cbn [status]; intro S; try discriminate S.
  all: match goal with
       | X : option_map _ (find ?f ?d) = Some _ |- _ =>
           destruct (find f d) as [r|] eqn:F; [|discriminate X];
           simpl in X; inversion X; subst; clear X
       end.
  all: pose proof (find_some _ _ F) as [I Q];
    rewrite matches_id_text in Q; apply sql_eqb_eq in Q.
  all: split;
    [ eexists; split; [reflexivity|]; split; [|apply has_key_omit];
      unfold field; simpl; rewrite Q; reflexivity
    | intros req2 P; rewrite P; cbn [st_db]; rewrite F; reflexivity ].
Qed.

Lemma update_then_get_witness :
  (exists o, body (json 200 (public_row
                     (mkRow (SText "u1") (SText "alice") (SText "salt:password1")
                            (SText "al@x.com") (SInt 0) (SText "2025-01-01 00:00:00"))))
             = JObj o /\ field "id" o = JStr "u1" /\ has_key "password_hash" o = false) /\
  forall req2, params_id req2 = "u1" ->
    get_user Sample.lib req2
      (mkSt [Sample.root;
             mkRow (SText "u1") (SText "alice") (SText "salt:password1")
                   (SText "al@x.com") (SInt 0) (SText "2025-01-01 00:00:00")] [])
    = (Ok (json 200 (public_row
                       (mkRow (SText "u1") (SText "alice") (SText "salt:password1")
                              (SText "al@x.com") (SInt 0) (SText "2025-01-01 00:00:00")))),
       mkSt [Sample.root;
             mkRow (SText "u1") (SText "alice") (SText "salt:password1")
                   (SText "al@x.com") (SInt 0) (SText "2025-01-01 00:00:00")] []).
Proof.
  apply (update_then_get Sample.lib (Sample.world "x")
           (Sample.request None "u1" (JObj [("email", JStr "al@x.com")]))
           (mkSt [Sample.root; Sample.alice] [])).
  - reflexivity.
  - reflexivity.
Defined.

(** ** Where a 401 comes from *)

Lemma gate_responses (lib : Lib) (w : World) (req : Req) (st st1 : St) (res : Response) :
  authenticateToken lib w req st = (Ok (Respond res), st1) ->
  res = token_missing \/
  res = json 401 (error_body "Usuário não encontrado") \/
  status res = 403 \/ status res = 500.
Proof.
  unfold authenticateToken. unfold_handler.
  repeat step; finish; cbn [status]; tauto.
Qed.

(** On the routes behind the gate a 401 is always the gate's: the token is
    missing or its user is not stored.  The 401 "Autenticação necessária"
    of the two predicates is never sent, and a 401 writes nothing. *)
Lemma unauthorized_comes_from_gate (lib : Lib) (w : World) (route : Route) (req : Req)
      (st st' : St) (res : Response) :
  protected route = true ->
  serve lib w route req st = (Ok res, st') ->
  status res = 401 ->
  (res = token_missing \/ res = json 401 (error_body "Usuário não encontrado")) /\
  st_db st' = st_db st.
Proof.
  intros P H S.
  destruct (serve_at_gate lib w route req st P) as [res0 [st1 [H0 [G [D _]]]]].
  rewrite H0 in H. inversion H; subst. split; [|exact D].
  destruct (gate_responses lib w req st st' res G) as [R|[R|[R|R]]];
    [left; exact R|right; exact R| |]; rewrite S in R; discriminate R.
Qed.

Lemma unauthorized_comes_from_gate_witness :
  (token_missing = token_missing \/
   token_missing = json 401 (error_body "Usuário não encontrado")) /\
  st_db (mkSt [Sample.alice] []) = st_db (mkSt [Sample.alice] []).
Proof.
  apply (unauthorized_comes_from_gate Sample.lib (Sample.world "x") GetUsers
           (Sample.request (Some "Bearer") "" JUndefined)
           (mkSt [Sample.alice] []) (mkSt [Sample.alice] [])).
  - reflexivity.
  - reflexivity.
  - reflexivity.
Defined.

